(** * Quarantine-Violation-Police-Alert: the messaging protocol and its state

    A shallow embedding of [backend.py], [beacon.py], [client.py] and
    [utils.py].  Python objects become records, methods become computations
    in a state-and-exception monad over the process state, and the calls
    into the [cryptography], [datetime] and [ssl] libraries go through an
    explicit runtime interface. *)

From Stdlib Require Import String Ascii List ZArith QArith Lia Bool Arith DecimalString.
From Stdlib Require Import Permutation.
Import ListNotations.

Set Implicit Arguments.
Local Open Scope Z_scope.
Local Open Scope string_scope.

(** ** Python primitives *)

Module Py.

(** The exceptions that the modelled code can raise. *)
Inductive exn : Type :=
| KeyError            (* d[k] on an absent key *)
| IndexError          (* l[i] past the end of a list *)
| ValueError          (* Fernet(key) on a malformed key, strptime on a malformed string *)
| UnicodeDecodeError  (* bytes.decode() on bytes that are not UTF-8 *)
| InvalidToken        (* cryptography.fernet.InvalidToken *)
| OSError.            (* refused connection, failed TLS handshake *)

Definition exn_eqb (a b : exn) : bool :=
  match a, b with
  | KeyError, KeyError | IndexError, IndexError | ValueError, ValueError
  | UnicodeDecodeError, UnicodeDecodeError | InvalidToken, InvalidToken
  | OSError, OSError => true
  | _, _ => false
  end.

(** Outcome of an expression or a statement: a value or a raised exception. *)
Inductive res (A : Type) : Type :=
| Ok (a : A)
| Raise (e : exn).
Arguments Raise {A} e.

Definition of_option {A} (e : exn) (o : option A) : res A :=
  match o with
  | Some a => Ok a
  | None => Raise e
  end.

(** [l[i]] for a literal index [i >= 0]. *)
Definition index {A} (l : list A) (i : nat) : res A :=
  of_option IndexError (nth_error l i).

(** [s.startswith(p)] *)
Fixpoint startswith (p s : string) : bool :=
  match p, s with
  | EmptyString, _ => true
  | String a p', String b s' => Ascii.eqb a b && startswith p' s'
  | String _ _, EmptyString => false
  end.

(** [s.split(sep)] for a non-empty separator.  [skip] counts the characters
    of an already matched occurrence of [sep] that are still to be dropped. *)
Fixpoint split_from (sep : string) (skip : nat) (s : string) : list string :=
  match s with
  | EmptyString => [EmptyString]
  | String c s' =>
      match skip with
      | S k => split_from sep k s'
      | O =>
          if startswith sep s
          then EmptyString :: split_from sep (String.length sep - 1) s'
          else match split_from sep 0 s' with
               | w :: ws => String c w :: ws
               | [] => [String c EmptyString]
               end
      end
  end.

Definition split (sep s : string) : list string := split_from sep 0 s.

(** [sep.join(l)] *)
Definition join (sep : string) (l : list string) : string := String.concat sep l.

(** A Python [str] is represented by its UTF-8 encoding: [str.encode] is the
    identity on the representation and [bytes.decode] is a well-formedness
    check. *)
Definition bytes := string.

Definition byte_in (lo hi : nat) (c : ascii) : bool :=
  (lo <=? nat_of_ascii c)%nat && (nat_of_ascii c <=? hi)%nat.

Definition continuation : ascii -> bool := byte_in 128 191.

Fixpoint utf8_valid (b : bytes) : bool :=
  match b with
  | EmptyString => true
  | String c0 r0 =>
    if byte_in 0 127 c0 then utf8_valid r0 else
    match r0 with
    | EmptyString => false
    | String c1 r1 =>
      if byte_in 194 223 c0 then continuation c1 && utf8_valid r1 else
      match r1 with
      | EmptyString => false
      | String c2 r2 =>
        if byte_in 224 224 c0
        then byte_in 160 191 c1 && continuation c2 && utf8_valid r2
        else if byte_in 237 237 c0
        then byte_in 128 159 c1 && continuation c2 && utf8_valid r2
        else if byte_in 225 239 c0
        then continuation c1 && continuation c2 && utf8_valid r2 else
        match r2 with
        | EmptyString => false
        | String c3 r3 =>
          if byte_in 240 240 c0
          then byte_in 144 191 c1 && continuation c2 && continuation c3 && utf8_valid r3
          else if byte_in 241 243 c0
          then continuation c1 && continuation c2 && continuation c3 && utf8_valid r3
          else if byte_in 244 244 c0
          then byte_in 128 143 c1 && continuation c2 && continuation c3 && utf8_valid r3
          else false
        end
      end
    end
  end.

Definition str_encode (s : string) : bytes := s.

Definition bytes_decode (b : bytes) : res string :=
  if utf8_valid b then Ok b else Raise UnicodeDecodeError.

End Py.

Import Py.

(** ** Python dictionaries, in insertion order (the order of [for k in d]) *)

Module Dict.
Section WithValue.
Variable V : Type.

Definition t := list (string * V).

Definition empty : t := [].

Fixpoint get (d : t) (k : string) : option V :=
  match d with
  | [] => None
  | (k', v) :: d' => if String.eqb k k' then Some v else get d' k
  end.

(** [k in d] *)
Definition mem (d : t) (k : string) : bool :=
  match get d k with
  | Some _ => true
  | None => false
  end.

(** [d[k]] *)
Definition getitem (d : t) (k : string) : res V := of_option KeyError (get d k).

(** [d[k] = v]: a key already present keeps its place, a new key goes last. *)
Fixpoint set (d : t) (k : string) (v : V) : t :=
  match d with
  | [] => [(k, v)]
  | (k', v') :: d' =>
      if String.eqb k k' then (k', v) :: d' else (k', v') :: set d' k v
  end.

Definition keys (d : t) : list string := map fst d.

End WithValue.
End Dict.

(** ** Computations: state passing with exceptions

    A raised exception keeps the state reached so far, as in Python. *)

Definition M (S A : Type) : Type := S -> res A * S.

Definition ret {S A} (a : A) : M S A := fun s => (Ok a, s).

Definition bind {S A B} (m : M S A) (k : A -> M S B) : M S B :=
  fun s =>
    match m s with
    | (Ok a, s') => k a s'
    | (Raise e, s') => (Raise e, s')
    end.

Definition lift {S A} (r : res A) : M S A := fun s => (r, s).

Definition gets {S A} (f : S -> A) : M S A := fun s => (Ok (f s), s).

Definition modify {S} (f : S -> S) : M S unit := fun s => (Ok tt, f s).

(** [try: body except e: handler] *)
Definition try_except {S} (body : M S unit) (e : exn) (handler : M S unit) : M S unit :=
  fun s =>
    match body s with
    | (Ok tt, s') => (Ok tt, s')
    | (Raise e', s') => if exn_eqb e' e then handler s' else (Raise e', s')
    end.

(** [for x in l: body(x)] *)
Fixpoint for_each {S A} (l : list A) (body : A -> M S unit) : M S unit :=
  match l with
  | [] => ret tt
  | x :: l' => bind (body x) (fun _ => for_each l' body)
  end.

Declare Scope py_scope.
Delimit Scope py_scope with py.
Notation "x <- m ;; k" := (bind m (fun x => k))
  (at level 100, m at next level, right associativity) : py_scope.
Notation "m ;; k" := (bind m (fun _ => k))
  (at level 100, right associativity) : py_scope.
Local Open Scope py_scope.

(** ** TLS sessions as configured through [ssl.wrap_socket] *)

Module ssl.

Inductive VerifyMode : Type := CERT_NONE | CERT_OPTIONAL | CERT_REQUIRED.

Inductive Protocol : Type := PROTOCOL_TLS | PROTOCOL_TLSv1_2 | PROTOCOL_TLS_SERVER.

(** The keyword arguments of [ssl.wrap_socket].  A file argument is held as
    the content of the file it names; certificates are PEM texts. *)
Record wrap_socket_args : Type := {
  keyfile : option string;
  certfile : option string;
  server_side : bool;
  cert_reqs : VerifyMode;
  ssl_version : Protocol;
  ca_certs : option string;
  ciphers : option string
}.

(** The defaults of the signature of [ssl.wrap_socket]. *)
Definition defaults : wrap_socket_args :=
  {| keyfile := None; certfile := None; server_side := false;
     cert_reqs := CERT_NONE; ssl_version := PROTOCOL_TLS;
     ca_certs := None; ciphers := None |}.

(** What an established session knows about its two ends. *)
Record session : Type := {
  server_authenticated : bool;  (* the client validated the server's certificate *)
  client_authenticated : bool   (* the server validated a client certificate *)
}.

(** The certificate an endpoint can present: it needs the certificate and
    its private key. *)
Definition presented (a : wrap_socket_args) : option string :=
  match keyfile a, certfile a with
  | Some _, Some c => Some c
  | _, _ => None
  end.

(** Every certificate of this system is self-signed and exchanged by hand:
    a peer certificate validates against [ca_certs] when it is the
    certificate stored there. *)
Definition validates (ca : option string) (cert : string) : bool :=
  match ca with
  | Some c => String.eqb c cert
  | None => false
  end.

(** The check one end makes of the other's certificate: [None] aborts the
    handshake, [Some b] lets it go on with the peer authenticated or not. *)
Definition verify_peer (me peer : wrap_socket_args) : option bool :=
  match cert_reqs me with
  | CERT_NONE => Some false
  | CERT_OPTIONAL =>
      match presented peer with
      | None => Some false
      | Some c => if validates (ca_certs me) c then Some true else None
      end
  | CERT_REQUIRED =>
      match presented peer with
      | None => None
      | Some c => if validates (ca_certs me) c then Some true else None
      end
  end.

Definition versions_agree (server client : Protocol) : bool :=
  match client with
  | PROTOCOL_TLS_SERVER => false
  | _ => true
  end.

(** The handshake between a listening and a connecting endpoint.  The
    server always presents its certificate; the client's is requested only
    when the server's [cert_reqs] says so. *)
Definition handshake (server client : wrap_socket_args) : option session :=
  if server_side server && negb (server_side client)
     && versions_agree (ssl_version server) (ssl_version client)
  then
    match presented server with
    | None => None
    | Some _ =>
        match verify_peer client server, verify_peer server client with
        | Some s, Some c => Some {| server_authenticated := s; client_authenticated := c |}
        | _, _ => None
        end
    end
  else None.


End ssl.

(** ** The process and its environment *)

(** Everything outside the Python objects: the clock, the random sources,
    the execution log, the standard output and the network. *)
Record World : Type := {
  clock : nat -> Z;          (* successive readings of the UTC clock, in microseconds *)
  reads : nat;               (* readings consumed so far *)
  rand : nat -> Q;           (* successive values of numpy.random.rand() *)
  urandom : nat -> bytes;    (* successive values of os.urandom(16) *)
  draws : nat;               (* random values consumed so far *)
  execution_log : list (string * list string);  (* execution_log.txt: time stamp, logged list *)
  stdout : list string;
  listening : Z -> option ssl.wrap_socket_args;  (* the TLS server bound to each port *)
  sent : list (Z * bytes);   (* what has been written to which port *)
  handler_calls : list (string * list string)
    (* not program state: the handler invocations made by the routers, in order *)
}.

Definition tick (w : World) : World :=
  {| clock := clock w; reads := S (reads w); rand := rand w; urandom := urandom w;
     draws := draws w; execution_log := execution_log w; stdout := stdout w;
     listening := listening w; sent := sent w; handler_calls := handler_calls w |}.

Definition draw (w : World) : World :=
  {| clock := clock w; reads := reads w; rand := rand w; urandom := urandom w;
     draws := S (draws w); execution_log := execution_log w; stdout := stdout w;
     listening := listening w; sent := sent w; handler_calls := handler_calls w |}.

Definition log_line (l : string * list string) (w : World) : World :=
  {| clock := clock w; reads := reads w; rand := rand w; urandom := urandom w;
     draws := draws w; execution_log := (execution_log w ++ [l])%list; stdout := stdout w;
     listening := listening w; sent := sent w; handler_calls := handler_calls w |}.

Definition print_line (l : string) (w : World) : World :=
  {| clock := clock w; reads := reads w; rand := rand w; urandom := urandom w;
     draws := draws w; execution_log := execution_log w; stdout := (stdout w ++ [l])%list;
     listening := listening w; sent := sent w; handler_calls := handler_calls w |}.

Definition write_to (port : Z) (b : bytes) (w : World) : World :=
  {| clock := clock w; reads := reads w; rand := rand w; urandom := urandom w;
     draws := draws w; execution_log := execution_log w; stdout := stdout w;
     listening := listening w; sent := (sent w ++ [(port, b)])%list;
     handler_calls := handler_calls w |}.

Definition record_call (c : string * list string) (w : World) : World :=
  {| clock := clock w; reads := reads w; rand := rand w; urandom := urandom w;
     draws := draws w; execution_log := execution_log w; stdout := stdout w;
     listening := listening w; sent := sent w;
     handler_calls := (handler_calls w ++ [c])%list |}.

(** A process: the environment and the object whose method is running. *)
Record Proc (B : Type) : Type := {
  world : World;
  self : B
}.

Section Process.
Variable B : Type.

Definition on_world (f : World -> World) : M (Proc B) unit :=
  modify (fun p => {| world := f (world p); self := self p |}).

Definition on_self (f : B -> B) : M (Proc B) unit :=
  modify (fun p => {| world := world p; self := f (self p) |}).

(** [dt.utcnow()] *)
Definition utcnow : M (Proc B) Z :=
  fun p => (Ok (clock (world p) (reads (world p))),
            {| world := tick (world p); self := self p |}).

(** [int(time.time())], in seconds *)
Definition time_time : M (Proc B) Z :=
  now <- utcnow ;; ret (now / 1000000).

(** [random.rand()] *)
Definition random_rand : M (Proc B) Q :=
  fun p => (Ok (rand (world p) (draws (world p))),
            {| world := draw (world p); self := self p |}).

(** [os.urandom(16)] *)
Definition os_urandom : M (Proc B) bytes :=
  fun p => (Ok (urandom (world p) (draws (world p))),
            {| world := draw (world p); self := self p |}).

Definition print (l : string) : M (Proc B) unit := on_world (print_line l).

End Process.

Arguments on_world {B} f.
Arguments on_self {B} f.
Arguments utcnow {B}.
Arguments time_time {B}.
Arguments random_rand {B}.
Arguments os_urandom {B}.
Arguments print {B} l.

(** ** The runtime interface: [datetime] formatting and [cryptography.fernet] *)

Class Runtime : Type := {
  (** [d.strftime(database_dt_format)] *)
  strftime : Z -> string;
  (** [dt.strptime(s, database_dt_format)]; [None] stands for [ValueError] *)
  strptime : string -> option Z;
  fernet : Type;
  (** [Fernet(key)]; [None] stands for the [ValueError] of a malformed key *)
  Fernet : string -> option fernet;
  (** [f.encrypt(data)], given the time and the initialisation vector it draws *)
  encrypt : fernet -> Z -> bytes -> bytes -> bytes;
  (** [f.decrypt(token)]; [None] stands for [InvalidToken] *)
  decrypt : fernet -> bytes -> option bytes
}.

(** What the documentation of [cryptography.fernet] promises of a cipher:
    a token opens, under the cipher that made it, to the data it was made
    of, and a token is text (URL-safe base64). *)
Class FernetContract (rt : Runtime) : Prop := {
  decrypt_encrypt :
    forall (f : fernet) (current_time : Z) (iv data : bytes),
      decrypt f (encrypt f current_time iv data) = Some data;
  token_is_text :
    forall (f : fernet) (current_time : Z) (iv data : bytes),
      utf8_valid (encrypt f current_time iv data) = true
}.

(** [timedelta(seconds=s)], in microseconds *)
Definition td (seconds : Z) : Z := seconds * 1000000.

(** ** utils.py *)

Section Utils.
Context {rt : Runtime}.
Variable B : Type.

(** One line of [execution_log.txt]: the formatted time and the logged list. *)
Definition update_execution_log (data : list string) : M (Proc B) unit :=
  now <- utcnow ;;
  on_world (log_line (strftime now, data)).

End Utils.

Arguments update_execution_log {rt B} data.

(** ** backend.py *)

Definition separator : string := ",".
Definition app_header : string := "App".
Definition health_authority_header : string := "HealthAuthority".
Definition smartphone_header : string := "Smartphone".
Definition ciphers : string :=
  "ECDHE-RSA-AES256-GCM-SHA384:ECDHE-RSA-AES128-GCM-SHA256:TLS_CHACHA20_POLY1305_SHA256".

(** The attributes set by [Backend.__init__].  An attribute that holds the
    path of a file stands for the content of that file ([None] while the
    file does not exist). *)
Record Backend (V : Type) : Type := {
  _app_port : Z;
  _authority_port : Z;
  _key_path : option string;
  _certificate_path : option string;
  _ca_certificate_path : option string;
  _database_path : option (Dict.t V);
  _ciphers : string;
  _database : Dict.t V
}.

Section BackendState.
Variable V : Type.

Definition set_database (d : Dict.t V) (b : Backend V) : Backend V :=
  {| _app_port := _app_port b; _authority_port := _authority_port b;
     _key_path := _key_path b; _certificate_path := _certificate_path b;
     _ca_certificate_path := _ca_certificate_path b;
     _database_path := _database_path b; _ciphers := _ciphers b;
     _database := d |}.

(** [with open(self._database_path, 'w') as j: json.dump(self._database, j)] *)
Definition dump_database (b : Backend V) : Backend V :=
  {| _app_port := _app_port b; _authority_port := _authority_port b;
     _key_path := _key_path b; _certificate_path := _certificate_path b;
     _ca_certificate_path := _ca_certificate_path b;
     _database_path := Some (_database b); _ciphers := _ciphers b;
     _database := _database b |}.

(** [Backend.get_ca_certificate]: the peer certificate is stored once. *)
Definition get_ca_certificate (ca_cert : string) (b : Backend V) : Backend V :=
  match _ca_certificate_path b with
  | Some _ => b
  | None =>
      {| _app_port := _app_port b; _authority_port := _authority_port b;
         _key_path := _key_path b; _certificate_path := _certificate_path b;
         _ca_certificate_path := Some ca_cert;
         _database_path := _database_path b; _ciphers := _ciphers b;
         _database := _database b |}
  end.

End BackendState.

(** One accepted connection: how the peer wrapped its socket and what it
    wrote before closing. *)
Record connection : Type := {
  peer : ssl.wrap_socket_args;
  written : bytes
}.

(** [secure_socket.read()] returns at most 1024 bytes. *)
Definition read (c : connection) : bytes := String.substring 0 1024 (written c).

Module AppBackend.

(** The value [[id_beacon, key, datetime]] stored under a phone. *)
Record subject : Type := {
  id_beacon : string;
  key : string;
  datetime : string
}.

Abbreviation t := (Backend subject).

Section Methods.
Context {rt : Runtime}.

Definition _add_phone (id_phone id_beacon key : string) : M (Proc t) unit :=
  update_execution_log ["New Patient"; id_phone; id_beacon; key] ;;
  now <- utcnow ;;
  on_self (fun b =>
    set_database
      (Dict.set (_database b) id_phone
         {| id_beacon := id_beacon; key := key; datetime := strftime now |}) b) ;;
  on_self (@dump_database subject).

Definition _get_key (id_phone : string) : M (Proc t) (option string) :=
  db <- gets (fun p => _database (self p)) ;;
  if Dict.mem db id_phone
  then r <- lift (Dict.getitem db id_phone) ;; ret (Some (key r))
  else update_execution_log ["Invalid Phone"; id_phone] ;; ret None.

(** Line 167: [Fernet(key).decrypt(str.encode(ciphertext)).decode()] *)
Definition decrypt_string (key ciphertext : string) : res string :=
  match Fernet key with
  | None => Raise ValueError
  | Some f =>
      match decrypt f (str_encode ciphertext) with
      | None => Raise InvalidToken
      | Some plaintext => bytes_decode plaintext
      end
  end.

Definition _decrypt_token (id_phone ciphertext : string) : M (Proc t) unit :=
  update_execution_log ["New Token"; id_phone; ciphertext] ;;
  print ("New Token from ID Phone: " ++ id_phone ++ ", Ciphertext: " ++ ciphertext) ;;
  key <- _get_key id_phone ;;
  match key with
  | None => ret tt
  | Some key =>
      try_except
        (new_datetime_string <- lift (decrypt_string key ciphertext) ;;
         new_datetime <- lift (of_option ValueError (strptime new_datetime_string)) ;;
         db <- gets (fun p => _database (self p)) ;;
         r <- lift (Dict.getitem db id_phone) ;;
         database_datetime <- lift (of_option ValueError (strptime (datetime r))) ;;
         if new_datetime >? database_datetime
         then
           on_self (set_database
             (Dict.set db id_phone
                {| id_beacon := id_beacon r; key := AppBackend.key r;
                   datetime := new_datetime_string |})) ;;
           on_self (@dump_database subject)
         else ret tt)
        InvalidToken
        (update_execution_log ["Invalid Token"; id_phone; ciphertext])
  end.

(** The arguments of [wrap_socket] in [_client_session]. *)
Definition client_args (b : t) : ssl.wrap_socket_args :=
  {| ssl.keyfile := _key_path b;
     ssl.certfile := _certificate_path b;
     ssl.server_side := ssl.server_side ssl.defaults;
     ssl.cert_reqs := ssl.CERT_REQUIRED;
     ssl.ssl_version := ssl.PROTOCOL_TLSv1_2;
     ssl.ca_certs := _ca_certificate_path b;
     ssl.ciphers := Some (_ciphers b) |}.

Definition _client_session (data : string) : M (Proc t) unit :=
  b <- gets (fun p => self p) ;;
  server <- gets (fun p => listening (world p) (_authority_port b)) ;;
  match server with
  | None => lift (Raise OSError)
  | Some server =>
      match ssl.handshake server (client_args b) with
      | None => lift (Raise OSError)
      | Some _ => on_world (write_to (_authority_port b) (str_encode data))
      end
  end.

(** Lines 208-212: the body of the loop of [control_routine]. *)
Definition check (td_expire : Z) (id_phone : string) : M (Proc t) unit :=
  db <- gets (fun p => _database (self p)) ;;
  r <- lift (Dict.getitem db id_phone) ;;
  let id_beacon := id_beacon r in
  last <- lift (of_option ValueError (strptime (datetime r))) ;;
  let expire_dt := last + td td_expire in
  now <- utcnow ;;
  if now >? expire_dt
  then
    update_execution_log [app_header; id_beacon] ;;
    _client_session (join separator [app_header; id_beacon])
  else ret tt.

Definition control_routine (td_expire : Z) : M (Proc t) unit :=
  ids <- gets (fun p => Dict.keys (_database (self p))) ;;
  for_each ids (check td_expire).

(** The arguments of [wrap_socket] in [server_session]. *)
Definition server_args (b : t) : ssl.wrap_socket_args :=
  {| ssl.keyfile := _key_path b;
     ssl.certfile := _certificate_path b;
     ssl.server_side := true;
     ssl.cert_reqs := ssl.cert_reqs ssl.defaults;
     ssl.ssl_version := ssl.PROTOCOL_TLS_SERVER;
     ssl.ca_certs := ssl.ca_certs ssl.defaults;
     ssl.ciphers := Some (_ciphers b) |}.

(** Lines 236-239: the two tests on [data[0]]. *)
Definition dispatch (data : list string) : M (Proc t) unit :=
  tag <- lift (index data 0) ;;
  (if String.eqb tag health_authority_header
   then
     id_phone <- lift (index data 1) ;;
     id_beacon <- lift (index data 2) ;;
     key <- lift (index data 3) ;;
     on_world (record_call ("_add_phone", [id_phone; id_beacon; key])) ;;
     _add_phone id_phone id_beacon key
   else ret tt) ;;
  tag <- lift (index data 0) ;;
  if String.eqb tag smartphone_header
  then
    id_phone <- lift (index data 1) ;;
    ciphertext <- lift (index data 2) ;;
    on_world (record_call ("_decrypt_token", [id_phone; ciphertext])) ;;
    _decrypt_token id_phone ciphertext
  else ret tt.

(** One turn of the [while True] loop, from the accepted connection on. *)
Definition serve (c : connection) : M (Proc t) unit :=
  b <- gets (fun p => self p) ;;
  match ssl.handshake (server_args b) (peer c) with
  | None => lift (Raise OSError)
  | Some _ =>
      text <- lift (bytes_decode (read c)) ;;
      dispatch (split separator text)
  end.

(** The accept loop over the connections that arrive.  It never returns by
    itself: [Ok] means it is waiting in [accept()] for the next connection,
    [Raise] that an exception has ended it. *)
Definition server_session (arrivals : list connection) : M (Proc t) unit :=
  for_each arrivals serve.

End Methods.
End AppBackend.

Module AuthorityBackend.

(** [AuthorityBackend] extends [Backend] with the violation log; its
    database maps a beacon to the information on its patient. *)
Record t : Type := {
  base : Backend string;
  _log_path : option (Dict.t (list string));
  _log : Dict.t (list string)
}.

Definition set_base (b : Backend string) (a : t) : t :=
  {| base := b; _log_path := _log_path a; _log := _log a |}.

Definition set_log (l : Dict.t (list string)) (a : t) : t :=
  {| base := base a; _log_path := _log_path a; _log := l |}.

(** [with open(self._log_path, 'w') as j: json.dump(self._log, j)] *)
Definition dump_log (a : t) : t :=
  {| base := base a; _log_path := Some (_log a); _log := _log a |}.

Section Methods.
Context {rt : Runtime}.

Definition _add_datetime (id_beacon : string) : M (Proc t) unit :=
  db <- gets (fun p => _database (base (self p))) ;;
  info <- lift (Dict.getitem db id_beacon) ;;
  update_execution_log ["Quarantine Violation"; id_beacon; info] ;;
  db <- gets (fun p => _database (base (self p))) ;;
  info <- lift (Dict.getitem db id_beacon) ;;
  print ("Quarantine Violation from ID Beacon: " ++ id_beacon ++ ", Info: " ++ info) ;;
  db <- gets (fun p => _database (base (self p))) ;;
  if Dict.mem db id_beacon
  then
    log <- gets (fun p => _log (self p)) ;;
    (if negb (Dict.mem log id_beacon)
     then
       now <- utcnow ;;
       on_self (set_log (Dict.set log id_beacon [strftime now]))
     else
       l <- lift (Dict.getitem log id_beacon) ;;
       now <- utcnow ;;
       on_self (set_log (Dict.set log id_beacon (l ++ [strftime now])%list))) ;;
    on_self dump_log
  else update_execution_log ["Invalid Beacon"; id_beacon].

Definition add_beacon (id_beacon info : string) : M (Proc t) unit :=
  update_execution_log ["New Beacon"; id_beacon; info] ;;
  on_self (fun a => set_base (set_database (Dict.set (_database (base a)) id_beacon info) (base a)) a) ;;
  on_self (fun a => set_base (dump_database (base a)) a).

(** The arguments of [wrap_socket] in [server_session]. *)
Definition server_args (a : t) : ssl.wrap_socket_args :=
  {| ssl.keyfile := _key_path (base a);
     ssl.certfile := _certificate_path (base a);
     ssl.server_side := true;
     ssl.cert_reqs := ssl.CERT_REQUIRED;
     ssl.ssl_version := ssl.PROTOCOL_TLS_SERVER;
     ssl.ca_certs := _ca_certificate_path (base a);
     ssl.ciphers := Some (_ciphers (base a)) |}.

(** Lines 316-317: the test on [data[0]]. *)
Definition dispatch (data : list string) : M (Proc t) unit :=
  tag <- lift (index data 0) ;;
  if String.eqb tag app_header
  then
    id_beacon <- lift (index data 1) ;;
    on_world (record_call ("_add_datetime", [id_beacon])) ;;
    _add_datetime id_beacon
  else ret tt.

Definition serve (c : connection) : M (Proc t) unit :=
  a <- gets (fun p => self p) ;;
  match ssl.handshake (server_args a) (peer c) with
  | None => lift (Raise OSError)
  | Some _ =>
      text <- lift (bytes_decode (read c)) ;;
      dispatch (split separator text)
  end.

(** The accept loop; see [AppBackend.server_session]. *)
Definition server_session (arrivals : list connection) : M (Proc t) unit :=
  for_each arrivals serve.

End Methods.
End AuthorityBackend.

(** ** client.py *)

Module Client.

Record t : Type := {
  _app_port : Z;
  _ca_certificate_path : option string;  (* content of ca_certificate.pem *)
  _ciphers : string
}.

Definition set_ca_certificate (cert : string) (c : t) : t :=
  {| _app_port := _app_port c; _ca_certificate_path := Some cert; _ciphers := _ciphers c |}.

(** A client that lacks the certificate of AppBackend takes the one the
    server at [_app_port] presents. *)
Definition _check_ca_certificate : M (Proc t) unit :=
  c <- gets (fun p => self p) ;;
  match _ca_certificate_path c with
  | Some _ => ret tt
  | None =>
      server <- gets (fun p => listening (world p) (_app_port c)) ;;
      match server with
      | None => lift (Raise OSError)
      | Some server =>
          match ssl.presented server with
          | None => lift (Raise OSError)
          | Some cert => on_self (set_ca_certificate cert)
          end
      end
  end.

(** The arguments of [wrap_socket] in [_client_session]. *)
Definition client_args (c : t) : ssl.wrap_socket_args :=
  {| ssl.keyfile := ssl.keyfile ssl.defaults;
     ssl.certfile := ssl.certfile ssl.defaults;
     ssl.server_side := ssl.server_side ssl.defaults;
     ssl.cert_reqs := ssl.CERT_REQUIRED;
     ssl.ssl_version := ssl.PROTOCOL_TLSv1_2;
     ssl.ca_certs := _ca_certificate_path c;
     ssl.ciphers := Some (_ciphers c) |}.

Definition _client_session (data : string) : M (Proc t) unit :=
  _check_ca_certificate ;;
  c <- gets (fun p => self p) ;;
  server <- gets (fun p => listening (world p) (_app_port c)) ;;
  match server with
  | None => lift (Raise OSError)
  | Some server =>
      match ssl.handshake server (client_args c) with
      | None => lift (Raise OSError)
      | Some _ => on_world (write_to (_app_port c) (str_encode data))
      end
  end.

(** What AppBackend accepts when this client connects and writes [data]. *)
Definition connection_of (c : t) (data : string) : connection :=
  {| peer := client_args c; written := str_encode data |}.

End Client.

Module HealthAuthority.
Section Methods.
Context {rt : Runtime}.

Definition routine (id_phone id_beacon key : string) : M (Proc Client.t) unit :=
  update_execution_log [health_authority_header; id_phone; id_beacon; key] ;;
  Client._client_session (join separator [health_authority_header; id_phone; id_beacon; key]).

End Methods.
End HealthAuthority.

(** ** beacon.py *)

Module SmartBeacon.

Record t : Type := {
  _on : bool;
  _id_beacon : string;
  _header : string;
  _key : string;
  _packet : string  (* content of beacon_packets/<header>.txt *)
}.

Definition write_packet (s : string) (b : t) : t :=
  {| _on := _on b; _id_beacon := _id_beacon b; _header := _header b;
     _key := _key b; _packet := s |}.

Definition set_on (on : bool) (b : t) : t :=
  {| _on := on; _id_beacon := _id_beacon b; _header := _header b;
     _key := _key b; _packet := _packet b |}.

Definition get_on (b : t) : bool := _on b.

Section Methods.
Context {rt : Runtime}.

(** Line 48, after [Fernet(self._key)]: [f.encrypt(plaintext).decode()],
    given the time and the initialisation vector that [encrypt] draws. *)
Definition encrypt_string (f : fernet) (current_time : Z) (iv plaintext : bytes) : res string :=
  bytes_decode (encrypt f current_time iv plaintext).

Definition routine (on : bool) (prob : Q) : M (Proc t) unit :=
  if on
  then
    now <- utcnow ;;
    let plaintext := str_encode (strftime now) in
    b <- gets (fun p => self p) ;;
    f <- lift (of_option ValueError (Fernet (_key b))) ;;
    current_time <- time_time ;;
    iv <- os_urandom ;;
    ciphertext <- lift (encrypt_string f current_time iv plaintext) ;;
    update_execution_log ["New Encryption"; _id_beacon b; _header b; ciphertext] ;;
    on_self (write_packet ciphertext)
  else
    b <- gets (fun p => self p) ;;
    update_execution_log ["Beacon Off"; _id_beacon b; _header b] ;;
    on_self (write_packet "") ;;
    r <- random_rand ;;
    on_self (set_on (if Qlt_le_dec r prob then false else true)).

End Methods.
End SmartBeacon.

(** ** Reading the state *)

(** The process after a sequence of calls of one method, each call made
    whatever the outcome of the one before. *)
Fixpoint after_calls {S A : Type} (method : A -> M S unit) (calls : list A) (s : S) : S :=
  match calls with
  | [] => s
  | a :: calls' => after_calls method calls' (snd (method a s))
  end.

Section Readings.
Context {rt : Runtime}.

(** The time last seen of a phone: its stored date, read as a time. *)
Definition lastSeen (b : AppBackend.t) (id_phone : string) : option Z :=
  match Dict.get (_database b) id_phone with
  | Some r => strptime (AppBackend.datetime r)
  | None => None
  end.

(** The violations recorded for a beacon, none when it has no list yet. *)
Definition violations (log : Dict.t (list string)) (id_beacon : string) : list string :=
  match Dict.get log id_beacon with
  | Some l => l
  | None => []
  end.

(** The clock reading that [_add_phone] and [_add_datetime] store: the
    second one of the call, the first being the one of the execution-log
    line that opens it. *)
Definition call_time (B : Type) (p : Proc B) : Z :=
  clock (world p) (S (reads (world p))).

(** The record of a phone with a new date. *)
Definition redated (r : AppBackend.subject) (date : string) : AppBackend.subject :=
  {| AppBackend.id_beacon := AppBackend.id_beacon r;
     AppBackend.key := AppBackend.key r;
     AppBackend.datetime := date |}.

(** The environment once [_decrypt_token] has logged and printed its
    arguments. *)
Definition token_announced (w : World) (id_phone ciphertext : string) : World :=
  print_line ("New Token from ID Phone: " ++ id_phone ++ ", Ciphertext: " ++ ciphertext)
    (log_line (strftime (clock w (reads w)), ["New Token"; id_phone; ciphertext]) (tick w)).







End Readings.


(** ** A concrete runtime and a concrete system, to run the model on

    Times print in decimal, as microseconds; a token spells the key and the
    plaintext in letters, two per byte, so that it opens under that key
    alone.  The clock starts twenty seconds after the origin of times; the
    three phones were last seen one, nine and two seconds after it. *)

Module Demo.

Definition letter (n : nat) : ascii := ascii_of_nat (97 + n).

Definition spell_byte (c : ascii) (rest : string) : string :=
  String (letter (nat_of_ascii c / 16)) (String (letter (nat_of_ascii c mod 16)) rest).

Fixpoint spell (s : string) : string :=
  match s with
  | EmptyString => EmptyString
  | String c s' => spell_byte c (spell s')
  end.

Definition nibble (c : ascii) : option nat :=
  let n := nat_of_ascii c in
  if (97 <=? n)%nat && (n <=? 112)%nat then Some (n - 97)%nat else None.

Fixpoint unspell (s : string) : option string :=
  match s with
  | EmptyString => Some EmptyString
  | String a (String b s') =>
      match nibble a, nibble b, unspell s' with
      | Some h, Some l, Some r => Some (String (ascii_of_nat (16 * h + l)) r)
      | _, _, _ => None
      end
  | String _ EmptyString => None
  end.

Fixpoint strip_prefix (p s : string) : option string :=
  match p, s with
  | EmptyString, _ => Some s
  | String a p', String b s' => if Ascii.eqb a b then strip_prefix p' s' else None
  | String _ _, EmptyString => None
  end.

#[export] Instance runtime : Runtime := {|
  strftime := fun d => DecimalString.NilZero.string_of_int (Z.to_int d);
  strptime := fun s => option_map Z.of_int (DecimalString.NilZero.int_of_string s);
  fernet := string;
  Fernet := fun key => if (String.length key =? 4)%nat then Some key else None;
  encrypt := fun f _ _ data => spell (f ++ data);
  decrypt := fun f token =>
    match unspell token with
    | Some s => strip_prefix f s
    | None => None
    end
|}.

Definition K1 : string := "key1".
Definition K2 : string := "key2".

(** The token a beacon holding [key] makes of the time [d]. *)
Definition token (key : string) (d : Z) : string := spell (key ++ strftime d).

Definition the_world : World :=
  {| clock := fun n => Z.of_nat n + 20000000;
     reads := 0;
     rand := fun _ => 0%Q;
     urandom := fun _ => "0123456789abcdef";
     draws := 0;
     execution_log := [];
     stdout := [];
     listening := fun _ => None;
     sent := [];
     handler_calls := [] |}.

Definition with_clock (c : nat -> Z) (w : World) : World :=
  {| clock := c; reads := reads w; rand := rand w; urandom := urandom w;
     draws := draws w; execution_log := execution_log w; stdout := stdout w;
     listening := listening w; sent := sent w; handler_calls := handler_calls w |}.

Definition with_listening (l : Z -> option ssl.wrap_socket_args) (w : World) : World :=
  {| clock := clock w; reads := reads w; rand := rand w; urandom := urandom w;
     draws := draws w; execution_log := execution_log w; stdout := stdout w;
     listening := l; sent := sent w; handler_calls := handler_calls w |}.

Definition backend (V : Type) (cert : string) (ca : option string) (db : Dict.t V) : Backend V :=
  {| _app_port := 1234; _authority_port := 5678;
     _key_path := Some (cert ++ " private key");
     _certificate_path := Some cert;
     _ca_certificate_path := ca;
     _database_path := None;
     _ciphers := ciphers;
     _database := db |}.

(** The two phones of one beacon, and a third with its own. *)
Definition app_database : Dict.t AppBackend.subject :=
  [ ("skt_01", {| AppBackend.id_beacon := "beacon_01"; AppBackend.key := K1;
                  AppBackend.datetime := "1000000" |});
    ("skt_02", {| AppBackend.id_beacon := "beacon_01"; AppBackend.key := K1;
                  AppBackend.datetime := "9000000" |});
    ("skt_03", {| AppBackend.id_beacon := "beacon_02"; AppBackend.key := K2;
                  AppBackend.datetime := "2000000" |}) ].

Definition app : AppBackend.t :=
  backend "app certificate" (Some "auth certificate") app_database.

Definition authority : AuthorityBackend.t :=
  {| AuthorityBackend.base :=
       backend "auth certificate" (Some "app certificate")
         [("beacon_01", "info_beacon_01"); ("beacon_02", "info_beacon_02")];
     AuthorityBackend._log_path := None;
     AuthorityBackend._log := [] |}.

Definition phone : Client.t :=
  {| Client._app_port := 1234;
     Client._ca_certificate_path := Some "app certificate";
     Client._ciphers := ciphers |}.

(** Both servers are up. *)
Definition network (port : Z) : option ssl.wrap_socket_args :=
  if (port =? 1234)%Z then Some (AppBackend.server_args app)
  else if (port =? 5678)%Z then Some (AuthorityBackend.server_args authority)
  else None.

Definition app_process : Proc AppBackend.t :=
  {| world := with_listening network the_world; self := app |}.

Definition authority_process : Proc AuthorityBackend.t :=
  {| world := with_listening network the_world; self := authority |}.

(** The connection that AuthorityBackend accepts when AppBackend writes
    [data] to it. *)
Definition from_app (data : string) : connection :=
  {| peer := AppBackend.client_args app; written := str_encode data |}.

(** The scenario: the health authority registers phone [P1] with beacon
    [B1] and key [K1] at an AppBackend that knows nobody; thirty seconds
    after the origin the beacon makes a token, which the phone relays; at
    sixty seconds the detector ticks and AuthorityBackend receives what it
    wrote; the phone then relays a token made at twenty-five seconds. *)

Definition at_time (start : Z) (w : World) : World :=
  with_clock (fun n => Z.of_nat n + start) w.

(** The connections a server accepts for what a process wrote to [port]. *)
Definition arrivals (B : Type) (p : Proc B) (args : ssl.wrap_socket_args) (port : Z)
  : list connection :=
  map (fun m => {| peer := args; written := snd m |})
      (filter (fun m => (fst m =? port)%Z) (sent (world p))).

Definition health_authority : Proc Client.t :=
  {| world := with_listening network the_world; self := phone |}.

Definition beacon : Proc SmartBeacon.t :=
  {| world := at_time 30000000 the_world;
     self := {| SmartBeacon._on := true; SmartBeacon._id_beacon := "B1";
                SmartBeacon._header := "header_01"; SmartBeacon._key := K1;
                SmartBeacon._packet := "" |} |}.

Definition relay (ciphertext : string) : list connection :=
  [Client.connection_of phone (join separator [smartphone_header; "P1"; ciphertext])].

Definition registered : Proc AppBackend.t :=
  snd (AppBackend.server_session
         (arrivals (snd (HealthAuthority.routine "P1" "B1" K1 health_authority))
            (Client.client_args phone) 1234)
         {| world := with_listening network the_world;
            self := backend "app certificate" (Some "auth certificate") [] |}).

Definition seen : Proc AppBackend.t :=
  snd (AppBackend.server_session
         (relay (SmartBeacon._packet (self (snd (SmartBeacon.routine true 0.5 beacon)))))
         registered).

Definition ticked : Proc AppBackend.t :=
  snd (AppBackend.control_routine 15
         {| world := at_time 60000000 (world seen); self := self seen |}).

Definition alerted : Proc AuthorityBackend.t :=
  snd (AuthorityBackend.server_session
         (arrivals ticked (AppBackend.client_args (self ticked)) 5678)
         {| world := at_time 60000000 (with_listening network the_world);
            self := {| AuthorityBackend.base :=
                         backend "auth certificate" (Some "app certificate") [("B1", "info")];
                       AuthorityBackend._log_path := None;
                       AuthorityBackend._log := [] |} |}).

Definition replayed : Proc AppBackend.t :=
  snd (AppBackend.server_session (relay (token K1 25000000)) ticked).

End Demo.

(** ** Further readings of the state *)

Section MoreReadings.
Context {rt : Runtime}.

(** The date that a ciphertext carries for the holder of [key], with the
    time it reads as: what [_decrypt_token] compares with the stored date. *)
Definition carried (key ciphertext : string) : option (string * Z) :=
  match AppBackend.decrypt_string key ciphertext with
  | Ok s =>
      match strptime s with
      | Some t => Some (s, t)
      | None => None
      end
  | Raise _ => None
  end.

(** The record of a phone once the phone has relayed [ciphertext]. *)
Definition relayed (r : AppBackend.subject) (ciphertext : string) : AppBackend.subject :=
  match carried (AppBackend.key r) ciphertext, strptime (AppBackend.datetime r) with
  | Some (s, new), Some old => if new >? old then redated r s else r
  | _, _ => r
  end.

(** The backend once [id_phone] has relayed [ciphertext]: the database and
    its file change only when the record does. *)
Definition observed (b : AppBackend.t) (id_phone ciphertext : string) : AppBackend.t :=
  match Dict.get (_database b) id_phone with
  | Some r =>
      match carried (AppBackend.key r) ciphertext, strptime (AppBackend.datetime r) with
      | Some (s, new), Some old =>
          if new >? old
          then dump_database (set_database (Dict.set (_database b) id_phone (redated r s)) b)
          else b
      | _, _ => b
      end
  | None => b
  end.

(** Two backends that know the same phones, with the same beacon, key and
    time last seen for each. *)
Definition same_subjects (b b' : AppBackend.t) : Prop :=
  forall id_phone,
    match Dict.get (_database b) id_phone, Dict.get (_database b') id_phone with
    | Some r, Some r' =>
        AppBackend.id_beacon r = AppBackend.id_beacon r'
        /\ AppBackend.key r = AppBackend.key r'
        /\ strptime (AppBackend.datetime r) = strptime (AppBackend.datetime r')
    | None, None => True
    | _, _ => False
    end.

End MoreReadings.

(** ** What every run of a computation keeps *)

(** [m] relates every state it starts from to the state it leaves,
    whatever its outcome. *)
Definition keeps {S A : Type} (R : S -> S -> Prop) (m : M S A) : Prop :=
  forall s, R s (snd (m s)).

(** The environment [w'] continues [w]: the same clock, random sources and
    listeners, no reading given back, and the execution log, the standard
    output, what was sent and the handler calls of [w] each a prefix of
    those of [w']. *)
Definition continues (w w' : World) : Prop :=
  clock w' = clock w
  /\ rand w' = rand w
  /\ urandom w' = urandom w
  /\ listening w' = listening w
  /\ (reads w <= reads w')%nat
  /\ (draws w <= draws w')%nat
  /\ (exists l, execution_log w' = (execution_log w ++ l)%list)
  /\ (exists l, stdout w' = (stdout w ++ l)%list)
  /\ (exists l, sent w' = (sent w ++ l)%list)
  /\ (exists l, handler_calls w' = (handler_calls w ++ l)%list).

Definition history (B : Type) (p p' : Proc B) : Prop := continues (world p) (world p').

Definition same_self (B : Type) (p p' : Proc B) : Prop := self p' = self p.

Section MoreDetection.
Context {rt : Runtime}.



End MoreDetection.

(** ** Further cases of the demo *)

Module Cases.


(** The phone of the demo writes one byte that no UTF-8 text contains. *)
Definition garbage : connection :=
  {| peer := Client.client_args Demo.phone;
     written := String (ascii_of_nat 255) EmptyString |}.


(** A token of the first phone whose plaintext is no date. *)
Definition undated : string := Demo.spell (Demo.K1 ++ "soon").

End Cases.
(** * Properties *)

(** ** Dictionaries *)

Section DictFacts.
Variable V : Type.
Implicit Types (d : Dict.t V) (k : string) (v : V).

Lemma get_set_same d k v : Dict.get (Dict.set d k v) k = Some v.
Proof.
  induction d as [|[k' v'] d IH]; simpl.
  - now rewrite String.eqb_refl.
  - destruct (String.eqb k k') eqn:E; simpl; rewrite E; auto.
Qed.

Lemma get_set_other d k k' v : k' <> k -> Dict.get (Dict.set d k v) k' = Dict.get d k'.
Proof.
  intros N. induction d as [|[k0 v0] d IH]; simpl.
  - apply String.eqb_neq in N. now rewrite N.
  - destruct (String.eqb k k0) eqn:E; simpl.
    + apply String.eqb_eq in E. subst k0.
      apply String.eqb_neq in N. now rewrite N.
    + now rewrite IH.
Qed.


End DictFacts.

(** ** Registration ([AppBackend._add_phone]) *)

Section Registration.
Context {rt : Runtime}.
Implicit Types (p : Proc AppBackend.t).

Lemma add_phone_run p id_phone id_beacon key :
  AppBackend._add_phone id_phone id_beacon key p =
  (Ok tt,
   {| world := tick (log_line (strftime (clock (world p) (reads (world p))),
                               ["New Patient"; id_phone; id_beacon; key])
                              (tick (world p)));
      self := dump_database
                (set_database
                   (Dict.set (_database (self p)) id_phone
                      {| AppBackend.id_beacon := id_beacon; AppBackend.key := key;
                         AppBackend.datetime := strftime (call_time p) |})
                   (self p)) |}).
Proof. reflexivity. Qed.

(** C7.  [_add_phone] returns normally and leaves under [id_phone] exactly
    the record of this call, dated with the clock reading of this call,
    whatever was stored there before; the other phones keep their records;
    the file of the database holds the new database when the call returns.
    In particular, a second registration of the same phone replaces beacon,
    key and date by those of the second call. *)
Theorem add_phone_overwrites :
  forall p id_phone id_beacon key,
    let p1 := snd (AppBackend._add_phone id_phone id_beacon key p) in
    fst (AppBackend._add_phone id_phone id_beacon key p) = Ok tt
    /\ Dict.get (_database (self p1)) id_phone =
         Some {| AppBackend.id_beacon := id_beacon; AppBackend.key := key;
                 AppBackend.datetime := strftime (call_time p) |}
    /\ (forall other, other <> id_phone ->
          Dict.get (_database (self p1)) other = Dict.get (_database (self p)) other)
    /\ _database_path (self p1) = Some (_database (self p1))
    /\ (forall id_beacon' key',
          let p2 := snd (AppBackend._add_phone id_phone id_beacon' key' p1) in
          Dict.get (_database (self p2)) id_phone =
            Some {| AppBackend.id_beacon := id_beacon'; AppBackend.key := key';
                    AppBackend.datetime := strftime (call_time p1) |}
          /\ _database_path (self p2) = Some (_database (self p2))).
Proof.
  intros p id_phone id_beacon key p1. subst p1.
  rewrite add_phone_run. cbn [fst snd self].
  repeat split.
  - apply get_set_same.
  - intros other N. now apply get_set_other.
  - rewrite add_phone_run. cbn [snd self]. apply get_set_same.
Qed.

End Registration.

(** ** The violation log ([AuthorityBackend._add_datetime]) *)

Section ViolationLog.
Context {rt : Runtime}.
Implicit Types (p : Proc AuthorityBackend.t).

Lemma add_datetime_unknown p id_beacon :
  Dict.get (_database (AuthorityBackend.base (self p))) id_beacon = None ->
  AuthorityBackend._add_datetime id_beacon p = (Raise KeyError, p).
Proof.
  intros H. unfold AuthorityBackend._add_datetime, bind, gets, lift, Dict.getitem.
  now rewrite H.
Qed.

Lemma add_datetime_known p id_beacon info :
  Dict.get (_database (AuthorityBackend.base (self p))) id_beacon = Some info ->
  AuthorityBackend._add_datetime id_beacon p =
  (Ok tt,
   {| world :=
        tick (print_line
                ("Quarantine Violation from ID Beacon: " ++ id_beacon ++ ", Info: " ++ info)
                (log_line (strftime (clock (world p) (reads (world p))),
                           ["Quarantine Violation"; id_beacon; info])
                          (tick (world p))));
      self :=
        AuthorityBackend.dump_log
          (AuthorityBackend.set_log
             (Dict.set (AuthorityBackend._log (self p)) id_beacon
                (violations (AuthorityBackend._log (self p)) id_beacon
                   ++ [strftime (call_time p)])%list)
             (self p)) |}).
Proof.
  intros H.
  unfold AuthorityBackend._add_datetime, bind, gets, lift, Dict.getitem, Dict.mem,
    violations, call_time.
  cbn. rewrite !H. cbn.
  destruct (Dict.get (AuthorityBackend._log (self p)) id_beacon) eqn:L; reflexivity.
Qed.

(** The database and the log after a call, whatever its outcome. *)
Lemma add_datetime_log p id_beacon :
  let p' := snd (AuthorityBackend._add_datetime id_beacon p) in
  _database (AuthorityBackend.base (self p')) = _database (AuthorityBackend.base (self p))
  /\ forall b, exists more,
       violations (AuthorityBackend._log (self p')) b =
       (violations (AuthorityBackend._log (self p)) b ++ more)%list.
Proof.
  destruct (Dict.get (_database (AuthorityBackend.base (self p))) id_beacon) as [info|] eqn:H.
  - rewrite (add_datetime_known _ _ H). cbn. split; [reflexivity|].
    intros b. destruct (String.eqb b id_beacon) eqn:E.
    + apply String.eqb_eq in E. subst b.
      eexists. unfold violations at 1. rewrite get_set_same. reflexivity.
    + apply String.eqb_neq in E. exists [].
      unfold violations at 1. rewrite (get_set_other _ _ E).
      now rewrite app_nil_r.
  - rewrite (add_datetime_unknown _ _ H). cbn. split; [reflexivity|].
    intros b. exists []. now rewrite app_nil_r.
Qed.

(** C8.  A call of [_add_datetime] for a beacon of the database returns
    normally; the list of that beacon becomes its former list (empty when
    it had none) followed by one entry, the date of the call; every other
    beacon keeps its list; the file of the log holds the new log.  Over any
    sequence of calls, for known and unknown beacons alike, the list a
    beacon had before is a prefix of the list it has after. *)
Theorem violation_log_append_only :
  forall p,
    (forall id_beacon info,
        Dict.get (_database (AuthorityBackend.base (self p))) id_beacon = Some info ->
        let p' := snd (AuthorityBackend._add_datetime id_beacon p) in
        fst (AuthorityBackend._add_datetime id_beacon p) = Ok tt
        /\ Dict.get (AuthorityBackend._log (self p')) id_beacon =
             Some (violations (AuthorityBackend._log (self p)) id_beacon
                     ++ [strftime (call_time p)])%list
        /\ (forall other, other <> id_beacon ->
              Dict.get (AuthorityBackend._log (self p')) other =
              Dict.get (AuthorityBackend._log (self p)) other)
        /\ AuthorityBackend._log_path (self p') = Some (AuthorityBackend._log (self p')))
    /\ (forall calls id_beacon, exists more,
          violations
            (AuthorityBackend._log (self (after_calls AuthorityBackend._add_datetime calls p)))
            id_beacon =
          (violations (AuthorityBackend._log (self p)) id_beacon ++ more)%list).
Proof.
  intros p. split.
  - intros id_beacon info H p'. subst p'.
    rewrite (add_datetime_known _ _ H). cbn [fst snd self].
    repeat split.
    + cbn. apply get_set_same.
    + intros other N. cbn. now apply get_set_other.
  - intros calls. revert p.
    induction calls as [|c calls IH]; intros p b; simpl.
    + exists []. now rewrite app_nil_r.
    + destruct (IH (snd (AuthorityBackend._add_datetime c p)) b) as [m2 E2].
      destruct (add_datetime_log p c) as [_ L]. destruct (L b) as [m1 E1].
      exists (m1 ++ m2)%list. rewrite E2, E1. now rewrite app_assoc.
Qed.

End ViolationLog.

(** ** Tokens ([AppBackend._decrypt_token]) *)

Section Tokens.
Context {rt : Runtime}.
Implicit Types (p : Proc AppBackend.t) (r : AppBackend.subject).

Lemma decrypt_token_unregistered p id_phone ciphertext :
  Dict.get (_database (self p)) id_phone = None ->
  AppBackend._decrypt_token id_phone ciphertext p =
  (Ok tt,
   {| world :=
        log_line (strftime (call_time p), ["Invalid Phone"; id_phone])
          (tick (token_announced (world p) id_phone ciphertext));
      self := self p |}).
Proof.
  intros H.
  unfold AppBackend._decrypt_token, AppBackend._get_key, bind, gets, Dict.mem.
  cbn. rewrite H. reflexivity.
Qed.

(** The run of [_decrypt_token] for a registered phone, by the outcome of
    the decryption and of the two readings of dates. *)
Lemma decrypt_token_registered p id_phone ciphertext r :
  Dict.get (_database (self p)) id_phone = Some r ->
  AppBackend._decrypt_token id_phone ciphertext p =
  let announced := {| world := token_announced (world p) id_phone ciphertext;
                      self := self p |} in
  match AppBackend.decrypt_string (AppBackend.key r) ciphertext with
  | Raise InvalidToken =>
      (Ok tt,
       {| world := log_line (strftime (call_time p), ["Invalid Token"; id_phone; ciphertext])
                     (tick (token_announced (world p) id_phone ciphertext));
          self := self p |})
  | Raise e => (Raise e, announced)
  | Ok new_datetime_string =>
      match strptime new_datetime_string, strptime (AppBackend.datetime r) with
      | Some new_datetime, Some database_datetime =>
          if new_datetime >? database_datetime
          then (Ok tt,
                {| world := token_announced (world p) id_phone ciphertext;
                   self := dump_database
                             (set_database
                                (Dict.set (_database (self p)) id_phone
                                   (redated r new_datetime_string))
                                (self p)) |})
          else (Ok tt, announced)
      | _, _ => (Raise ValueError, announced)
      end
  end.
Proof.
  intros H.
  unfold AppBackend._decrypt_token, AppBackend._get_key, bind, gets, lift,
    Dict.mem, Dict.getitem, try_except.
  cbn. rewrite !H. cbn.
  destruct (AppBackend.decrypt_string (AppBackend.key r) ciphertext) as [s|e]; cbn.
  - destruct (strptime s) as [tn|]; cbn.
    + rewrite H. cbn.
      destruct (strptime (AppBackend.datetime r)) as [t0|]; cbn; [|reflexivity].
      destruct (tn >? t0); reflexivity.
    + destruct (strptime (AppBackend.datetime r)); reflexivity.
  - destruct e; reflexivity.
Qed.


(** A stored key that makes no cipher: the [ValueError] of [Fernet(key)] is
    not the exception that [_decrypt_token] catches. *)
Lemma decrypt_token_malformed_key p id_phone ciphertext r :
  Dict.get (_database (self p)) id_phone = Some r ->
  Fernet (AppBackend.key r) = None ->
  AppBackend._decrypt_token id_phone ciphertext p =
  (Raise ValueError,
   {| world := token_announced (world p) id_phone ciphertext; self := self p |}).
Proof.
  intros G F. rewrite (@decrypt_token_registered p id_phone ciphertext r G). cbv zeta.
  unfold AppBackend.decrypt_string. now rewrite F.
Qed.

Lemma lastSeen_step p id_phone ciphertext subject t :
  lastSeen (self p) subject = Some t ->
  exists t',
    lastSeen (self (snd (AppBackend._decrypt_token id_phone ciphertext p))) subject = Some t'
    /\ t <= t'.
Proof.
  intros Ht.
  destruct (Dict.get (_database (self p)) id_phone) as [r|] eqn:G.
  - rewrite (@decrypt_token_registered p id_phone ciphertext r G). cbv zeta.
    destruct (AppBackend.decrypt_string (AppBackend.key r) ciphertext) as [s|e].
    + destruct (strptime s) as [new|] eqn:Pn;
        [|exists t; split; [exact Ht | lia]].
      destruct (strptime (AppBackend.datetime r)) as [old|] eqn:Po;
        [|exists t; split; [exact Ht | lia]].
      destruct (new >? old) eqn:C; [|exists t; split; [exact Ht | lia]].
      apply Z.gtb_lt in C. cbn [snd self].
      unfold lastSeen in *. cbn [_database dump_database set_database].
      destruct (String.eqb subject id_phone) eqn:E.
      * apply String.eqb_eq in E. subst subject.
        rewrite get_set_same. cbn. rewrite G, Po in Ht. inversion Ht; subst t.
        exists new. split; [exact Pn | lia].
      * apply String.eqb_neq in E. rewrite (get_set_other _ _ E).
        exists t. split; [exact Ht | lia].
    + destruct e; exists t; (split; [exact Ht | lia]).
  - rewrite (@decrypt_token_unregistered p id_phone ciphertext G). exists t. split; [exact Ht | lia].
Qed.

(** C1.  For a registered phone and a ciphertext that decrypts, under the
    phone's key, to a date that reads as the time [new], the stored date
    reading as [old]: the call returns normally; when [old < new] the record
    takes the decrypted date, the other records stay and the file of the
    database holds the new database; when [new <= old] the backend is left
    as it was and the only line logged is the one that announces the token.
    And over any sequence of calls, in any order and with any repetition,
    the time last seen of every phone never decreases. *)
Theorem lastSeen_never_decreases :
  forall p,
    (forall id_phone ciphertext r s new old,
        Dict.get (_database (self p)) id_phone = Some r ->
        AppBackend.decrypt_string (AppBackend.key r) ciphertext = Ok s ->
        strptime s = Some new ->
        strptime (AppBackend.datetime r) = Some old ->
        let p' := snd (AppBackend._decrypt_token id_phone ciphertext p) in
        fst (AppBackend._decrypt_token id_phone ciphertext p) = Ok tt
        /\ (old < new ->
              Dict.get (_database (self p')) id_phone = Some (redated r s)
              /\ lastSeen (self p') id_phone = Some new
              /\ (forall other, other <> id_phone ->
                    Dict.get (_database (self p')) other = Dict.get (_database (self p)) other)
              /\ _database_path (self p') = Some (_database (self p')))
        /\ (new <= old ->
              self p' = self p
              /\ execution_log (world p') =
                   (execution_log (world p)
                      ++ [(strftime (clock (world p) (reads (world p))),
                           ["New Token"; id_phone; ciphertext])])%list))
    /\ (forall calls subject t,
          lastSeen (self p) subject = Some t ->
          exists t',
            lastSeen
              (self (after_calls (fun c => AppBackend._decrypt_token (fst c) (snd c)) calls p))
              subject = Some t'
            /\ t <= t').
Proof.
  intros p. split.
  - intros id_phone ciphertext r s new old G D Pn Po p'. subst p'.
    rewrite (@decrypt_token_registered p id_phone ciphertext r G). cbv zeta. rewrite D, Pn, Po.
    destruct (new >? old) eqn:C.
    + apply Z.gtb_lt in C. cbn [fst snd self]. split; [reflexivity|]. split; [|lia].
      intros _. unfold lastSeen. cbn [_database _database_path dump_database set_database].
      rewrite get_set_same. repeat split; [exact Pn|].
      intros other N. now apply get_set_other.
    + assert (new <= old) by (rewrite Z.gtb_ltb in C; apply Z.ltb_ge in C; lia).
      cbn [fst snd self world]. split; [reflexivity|]. split; [lia|].
      intros _. split; reflexivity.
  - intros calls. revert p.
    induction calls as [|[id_phone ciphertext] calls IH]; intros p subject t Ht; simpl.
    + exists t. split; [exact Ht | lia].
    + destruct (lastSeen_step p id_phone ciphertext subject Ht) as [t1 [H1 L1]].
      destruct (IH _ subject t1 H1) as [t2 [H2 L2]].
      exists t2. split; [exact H2 | lia].
Qed.

(** C5.  For a registered phone whose key makes a cipher and a ciphertext
    that this cipher refuses, the decryption is classified [InvalidToken],
    [_decrypt_token] returns normally, the backend (database, dates, file)
    is left as it was, and the execution log gains the line that announces
    the token and the line ["Invalid Token"]. *)
Theorem invalid_token_is_logged_and_dropped :
  forall p id_phone ciphertext r f,
    Dict.get (_database (self p)) id_phone = Some r ->
    Fernet (AppBackend.key r) = Some f ->
    decrypt f (str_encode ciphertext) = None ->
    AppBackend.decrypt_string (AppBackend.key r) ciphertext = Raise InvalidToken
    /\ fst (AppBackend._decrypt_token id_phone ciphertext p) = Ok tt
    /\ self (snd (AppBackend._decrypt_token id_phone ciphertext p)) = self p
    /\ (forall subject,
          lastSeen (self (snd (AppBackend._decrypt_token id_phone ciphertext p))) subject =
          lastSeen (self p) subject)
    /\ execution_log (world (snd (AppBackend._decrypt_token id_phone ciphertext p))) =
         (execution_log (world p)
            ++ [(strftime (clock (world p) (reads (world p))),
                 ["New Token"; id_phone; ciphertext]);
                (strftime (call_time p), ["Invalid Token"; id_phone; ciphertext])])%list.
Proof.
  intros p id_phone ciphertext r f G F D.
  assert (E : AppBackend.decrypt_string (AppBackend.key r) ciphertext = Raise InvalidToken).
  { unfold AppBackend.decrypt_string. now rewrite F, D. }
  rewrite (@decrypt_token_registered p id_phone ciphertext r G). cbv zeta. rewrite E.
  cbn [fst snd self world]. repeat split.
  cbn. now rewrite <- app_assoc.
Qed.

End Tokens.

(** ** Detection ([AppBackend.control_routine]) *)

Section Detection.
Context {rt : Runtime}.
Implicit Types (p : Proc AppBackend.t) (r : AppBackend.subject).







End Detection.

(** ** Routing ([server_session]) *)



Section Routing.
Context {rt : Runtime}.






Lemma app_dispatch_short (p : Proc AppBackend.t) data rest :
  (data = health_authority_header :: rest /\ (length data < 4)%nat)
  \/ (data = smartphone_header :: rest /\ (length data < 3)%nat) ->
  AppBackend.dispatch data p = (Raise IndexError, p).
Proof.
  intros [[-> L]|[-> L]]; cbn in L.
  - destruct rest as [|a [|b [|c more]]]; try reflexivity. cbn in L. lia.
  - destruct rest as [|a [|b more]]; try reflexivity. cbn in L. lia.
Qed.


Lemma authority_dispatch_alert (p : Proc AuthorityBackend.t) id_beacon more :
  AuthorityBackend.dispatch (app_header :: id_beacon :: more) p =
  AuthorityBackend._add_datetime id_beacon
    {| world := record_call ("_add_datetime", [id_beacon]) (world p); self := self p |}.
Proof. reflexivity. Qed.


Lemma app_serve_run (p : Proc AppBackend.t) c s text :
  ssl.handshake (AppBackend.server_args (self p)) (peer c) = Some s ->
  bytes_decode (read c) = Ok text ->
  AppBackend.serve c p = AppBackend.dispatch (split separator text) p.
Proof.
  intros H D. unfold AppBackend.serve, bind, gets, lift. cbn. now rewrite H, D.
Qed.

Lemma authority_serve_run (p : Proc AuthorityBackend.t) c s text :
  ssl.handshake (AuthorityBackend.server_args (self p)) (peer c) = Some s ->
  bytes_decode (read c) = Ok text ->
  AuthorityBackend.serve c p = AuthorityBackend.dispatch (split separator text) p.
Proof.
  intros H D. unfold AuthorityBackend.serve, bind, gets, lift. cbn. now rewrite H, D.
Qed.

(** An alert for a beacon that the database lacks ends the accept loop of
    AuthorityBackend with [KeyError]; the backend is left as it was and the
    connections behind it are not served. *)
Lemma unknown_beacon_alert_ends_session (p : Proc AuthorityBackend.t) c s text id_beacon more later :
  ssl.handshake (AuthorityBackend.server_args (self p)) (peer c) = Some s ->
  bytes_decode (read c) = Ok text ->
  split separator text = app_header :: id_beacon :: more ->
  Dict.get (_database (AuthorityBackend.base (self p))) id_beacon = None ->
  AuthorityBackend.server_session (c :: later) p =
  (Raise KeyError,
   {| world := record_call ("_add_datetime", [id_beacon]) (world p); self := self p |}).
Proof.
  intros H D T G.
  unfold AuthorityBackend.server_session. cbn [for_each]. unfold bind.
  rewrite (authority_serve_run _ _ H D), T, authority_dispatch_alert.
  now rewrite add_datetime_unknown.
Qed.


(** C10.  A message of AppBackend whose tag is [HealthAuthority] with fewer
    than four fields, or [Smartphone] with fewer than three, is not passed
    over: the router raises [IndexError] before any handler, and the accept
    loop that received it ends with that exception, the connections after
    it unserved. *)
Theorem short_message_raises_IndexError :
  forall (p : Proc AppBackend.t) data rest,
    (data = health_authority_header :: rest /\ (length data < 4)%nat)
    \/ (data = smartphone_header :: rest /\ (length data < 3)%nat) ->
    AppBackend.dispatch data p = (Raise IndexError, p)
    /\ (forall c s text later,
          ssl.handshake (AppBackend.server_args (self p)) (peer c) = Some s ->
          bytes_decode (read c) = Ok text ->
          split separator text = data ->
          AppBackend.server_session (c :: later) p = (Raise IndexError, p)).
Proof.
  intros p data rest H.
  pose proof (app_dispatch_short p H) as E.
  split; [exact E|].
  intros c s text later Hs D <-.
  unfold AppBackend.server_session. cbn [for_each]. unfold bind.
  now rewrite (app_serve_run _ _ Hs D), E.
Qed.

End Routing.

(** ** Token round trip ([SmartBeacon.routine], [AppBackend._decrypt_token]) *)

Section RoundTrip.
Context {rt : Runtime} {contract : FernetContract rt}.

Lemma decrypt_string_encrypt_string key f timestamp current_time iv :
  Fernet key = Some f ->
  utf8_valid timestamp = true ->
  exists ciphertext,
    SmartBeacon.encrypt_string f current_time iv (str_encode timestamp) = Ok ciphertext
    /\ AppBackend.decrypt_string key ciphertext = Ok timestamp.
Proof.
  intros F U.
  exists (encrypt f current_time iv (str_encode timestamp)). split.
  - unfold SmartBeacon.encrypt_string, bytes_decode. now rewrite token_is_text.
  - unfold AppBackend.decrypt_string, str_encode, bytes_decode.
    now rewrite F, decrypt_encrypt, U.
Qed.

Lemma routine_on_run (p : Proc SmartBeacon.t) prob f :
  Fernet (SmartBeacon._key (self p)) = Some f ->
  exists ciphertext,
    SmartBeacon.encrypt_string f
      (clock (world p) (S (reads (world p))) / 1000000)
      (urandom (world p) (draws (world p)))
      (str_encode (strftime (clock (world p) (reads (world p))))) = Ok ciphertext
    /\ fst (SmartBeacon.routine true prob p) = Ok tt
    /\ SmartBeacon._packet (self (snd (SmartBeacon.routine true prob p))) = ciphertext.
Proof.
  intros F.
  unfold SmartBeacon.routine, bind, gets, lift, time_time, SmartBeacon.encrypt_string,
    bytes_decode.
  cbn. rewrite F. cbn. rewrite token_is_text. cbn. eauto.
Qed.

End RoundTrip.

(** C2.  With a cipher that keeps the contract of Fernet: for every key
    that makes a cipher and every timestamp string, whatever time and
    initialisation vector the encryption draws, encrypting as the beacon
    does yields a ciphertext string, and decrypting that string as
    AppBackend does, under the same key, yields the timestamp string
    itself.  So the packet that [routine] writes when the beacon is on
    decrypts to the very date the beacon formatted. *)
Theorem decrypt_of_encrypt_is_timestamp :
  forall (rt : Runtime) (contract : FernetContract rt) (key : string) (f : fernet)
         (timestamp : string) (current_time : Z) (iv : bytes),
    Fernet key = Some f ->
    utf8_valid timestamp = true ->
    (exists ciphertext,
        SmartBeacon.encrypt_string f current_time iv (str_encode timestamp) = Ok ciphertext
        /\ AppBackend.decrypt_string key ciphertext = Ok timestamp)
    /\ (forall (p : Proc SmartBeacon.t) (prob : Q),
          SmartBeacon._key (self p) = key ->
          strftime (clock (world p) (reads (world p))) = timestamp ->
          fst (SmartBeacon.routine true prob p) = Ok tt
          /\ AppBackend.decrypt_string key
               (SmartBeacon._packet (self (snd (SmartBeacon.routine true prob p)))) =
             Ok timestamp).
Proof.
  intros rt contract key f timestamp current_time iv F U. split.
  - now apply decrypt_string_encrypt_string.
  - intros p prob K T. subst key.
    destruct (routine_on_run p prob F) as [ciphertext [E [R P]]].
    split; [exact R|]. rewrite P.
    destruct (@decrypt_string_encrypt_string rt contract _ f timestamp
                (clock (world p) (S (reads (world p))) / 1000000)
                (urandom (world p) (draws (world p))) F U) as [c' [E' D']].
    rewrite T in E. rewrite E in E'. inversion E'. subst c'. exact D'.
Qed.

(** ** The TLS sessions of the two servers *)


(** ** The runtime of the demo keeps the contract *)

Lemma unspell_spell_byte c rest :
  Demo.unspell (Demo.spell_byte c rest) =
  match Demo.unspell rest with
  | Some r => Some (String c r)
  | None => None
  end.
Proof. destruct c as [[] [] [] [] [] [] [] []]; reflexivity. Qed.

Lemma unspell_spell s : Demo.unspell (Demo.spell s) = Some s.
Proof.
  induction s as [|c s IH]; [reflexivity|].
  cbn [Demo.spell]. now rewrite unspell_spell_byte, IH.
Qed.

Lemma utf8_valid_spell_byte c rest :
  utf8_valid (Demo.spell_byte c rest) = utf8_valid rest.
Proof. destruct c as [[] [] [] [] [] [] [] []]; reflexivity. Qed.

Lemma utf8_valid_spell s : utf8_valid (Demo.spell s) = true.
Proof.
  induction s as [|c s IH]; [reflexivity|].
  cbn [Demo.spell]. now rewrite utf8_valid_spell_byte.
Qed.

Lemma strip_prefix_append p s : Demo.strip_prefix p (p ++ s) = Some s.
Proof.
  induction p as [|a p IH]; [reflexivity|].
  cbn. now rewrite Ascii.eqb_refl.
Qed.

Lemma demo_contract : FernetContract Demo.runtime.
Proof.
  split; intros f current_time iv data; cbn.
  - now rewrite unspell_spell, strip_prefix_append.
  - apply utf8_valid_spell.
Qed.

(** ** Runs of the demo *)

Import Demo.


(** C4, on the code.  The database of the authority of the demo has no
    beacon ["beacon_77"].  An alert for it makes [_add_datetime] raise
    [KeyError] at its first line, before anything is logged: the line
    ["Invalid Beacon"] is never written, the log of violations stays empty,
    and the accept loop ends with the exception, so that the alert behind
    it, for a known beacon, is never handled. *)
Theorem unknown_beacon_ends_accept_loop :
  Dict.get (_database (AuthorityBackend.base Demo.authority)) "beacon_77" = None
  /\ AuthorityBackend._add_datetime "beacon_77" Demo.authority_process =
       (Raise KeyError, Demo.authority_process)
  /\ fst (AuthorityBackend.server_session
            [Demo.from_app "App,beacon_77"; Demo.from_app "App,beacon_01"]
            Demo.authority_process) = Raise KeyError
  /\ execution_log
       (world (snd (AuthorityBackend.server_session
                      [Demo.from_app "App,beacon_77"; Demo.from_app "App,beacon_01"]
                      Demo.authority_process))) = []
  /\ handler_calls
       (world (snd (AuthorityBackend.server_session
                      [Demo.from_app "App,beacon_77"; Demo.from_app "App,beacon_01"]
                      Demo.authority_process))) = [("_add_datetime", ["beacon_77"])]
  /\ AuthorityBackend._log
       (self (snd (AuthorityBackend.server_session
                     [Demo.from_app "App,beacon_77"; Demo.from_app "App,beacon_01"]
                     Demo.authority_process))) = [].
Proof. vm_compute. repeat split. Qed.



(** The tick of the demo: the first and the third phone are stale, the
    second, of the same beacon as the first, is not. *)
Example demo_tick_alerts :
  sent (world (snd (AppBackend.control_routine 15 app_process))) =
  [(5678, "App,beacon_01"); (5678, "App,beacon_02")].
Proof. vm_compute. reflexivity. Qed.

(** The scenario of the demo: the phone is seen at the time of the token,
    the tick that follows the silence writes one alert, the log of the
    authority gains exactly one entry for the beacon, and the late arrival
    of an earlier token changes nothing. *)
Example demo_scenario :
  lastSeen (self registered) "P1" = Some 20000001
  /\ lastSeen (self seen) "P1" = Some 30000000
  /\ sent (world ticked) = [(5678, "App,B1")]
  /\ AuthorityBackend._log (self alerted) = [("B1", ["60000001"])]
  /\ lastSeen (self replayed) "P1" = Some 30000000
  /\ _database (self replayed) = _database (self seen).
Proof. vm_compute. repeat split. Qed.

(** Without a listener at the port of AuthorityBackend, the first stale
    phone ends the tick: the connection is refused, [control_routine]
    raises, and the third phone, stale as well, is not looked at. *)
Example demo_tick_without_authority :
  fst (AppBackend.control_routine 15 {| world := the_world; self := app |}) = Raise OSError
  /\ execution_log
       (world (snd (AppBackend.control_routine 15 {| world := the_world; self := app |}))) =
     [("20000001", ["App"; "beacon_01"])]
  /\ sent (world (snd (AppBackend.control_routine 15 {| world := the_world; self := app |}))) = [].
Proof. vm_compute. repeat split. Qed.

(** ** The theorems at the demo *)

(** C1 at the demo: a token of twenty seconds moves the first phone on from
    one second; a token of half a millisecond leaves the backend alone. *)
Lemma lastSeen_never_decreases_witness :
  fst (AppBackend._decrypt_token "skt_01" (token K1 20000005) app_process) = Ok tt
  /\ lastSeen (self (snd (AppBackend._decrypt_token "skt_01" (token K1 20000005) app_process)))
       "skt_01" = Some 20000005
  /\ self (snd (AppBackend._decrypt_token "skt_01" (token K1 500) app_process)) =
     self app_process.
Proof.
  pose proof (proj1 (@lastSeen_never_decreases Demo.runtime app_process)) as H.
  destruct (H "skt_01" (token K1 20000005)
              {| AppBackend.id_beacon := "beacon_01"; AppBackend.key := K1;
                 AppBackend.datetime := "1000000" |}
              "20000005" 20000005 1000000)
    as [R [N _]]; try (vm_compute; reflexivity).
  destruct (H "skt_01" (token K1 500)
              {| AppBackend.id_beacon := "beacon_01"; AppBackend.key := K1;
                 AppBackend.datetime := "1000000" |}
              "500" 500 1000000)
    as [_ [_ O]]; try (vm_compute; reflexivity).
  split; [exact R|]. split; [apply N; lia | apply O; lia].
Defined.

(** C2 at the demo runtime, which keeps the contract. *)
Lemma decrypt_of_encrypt_is_timestamp_witness :
  (exists ciphertext,
      SmartBeacon.encrypt_string (rt := Demo.runtime) K1 20 "0123456789abcdef"
        (str_encode "20000005") = Ok ciphertext
      /\ AppBackend.decrypt_string K1 ciphertext = Ok "20000005")
  /\ (forall (p : Proc SmartBeacon.t) (prob : Q),
        SmartBeacon._key (self p) = K1 ->
        strftime (clock (world p) (reads (world p))) = "20000005" ->
        fst (SmartBeacon.routine true prob p) = Ok tt
        /\ AppBackend.decrypt_string K1
             (SmartBeacon._packet (self (snd (SmartBeacon.routine true prob p)))) =
           Ok "20000005").
Proof.
  apply (@decrypt_of_encrypt_is_timestamp Demo.runtime demo_contract
           K1 K1 "20000005" 20 "0123456789abcdef"); reflexivity.
Defined.


(** C5 at the demo: the first phone relays a token made under the key of
    the third. *)
Lemma invalid_token_is_logged_and_dropped_witness :
  AppBackend.decrypt_string K1 (token K2 20000005) = Raise InvalidToken
  /\ fst (AppBackend._decrypt_token "skt_01" (token K2 20000005) app_process) = Ok tt
  /\ self (snd (AppBackend._decrypt_token "skt_01" (token K2 20000005) app_process)) =
     self app_process
  /\ (forall subject,
        lastSeen (self (snd (AppBackend._decrypt_token "skt_01" (token K2 20000005) app_process)))
          subject = lastSeen (self app_process) subject)
  /\ execution_log
       (world (snd (AppBackend._decrypt_token "skt_01" (token K2 20000005) app_process))) =
     (execution_log (world app_process)
        ++ [(strftime (clock (world app_process) (reads (world app_process))),
             ["New Token"; "skt_01"; token K2 20000005]);
            (strftime (call_time app_process),
             ["Invalid Token"; "skt_01"; token K2 20000005])])%list.
Proof.
  apply (@invalid_token_is_logged_and_dropped Demo.runtime app_process
           "skt_01" (token K2 20000005)
           {| AppBackend.id_beacon := "beacon_01"; AppBackend.key := K1;
              AppBackend.datetime := "1000000" |} K1);
    vm_compute; reflexivity.
Defined.

(** C8 at the demo: the first violation of a known beacon. *)
Lemma violation_log_append_only_witness :
  fst (AuthorityBackend._add_datetime "beacon_01" authority_process) = Ok tt
  /\ Dict.get
       (AuthorityBackend._log (self (snd (AuthorityBackend._add_datetime "beacon_01"
                                            authority_process)))) "beacon_01" =
     Some [strftime (call_time authority_process)].
Proof.
  destruct (proj1 (@violation_log_append_only Demo.runtime authority_process)
              "beacon_01" "info_beacon_01" eq_refl) as [R [G _]].
  split; [exact R | exact G].
Defined.


(** C10 at the demo: a registration without its key ends the accept loop,
    and the complete registration behind it is not served. *)
Lemma short_message_raises_IndexError_witness :
  AppBackend.dispatch (split separator "HealthAuthority,skt_09,beacon_09") app_process =
    (Raise IndexError, app_process)
  /\ AppBackend.server_session
       [Client.connection_of phone "HealthAuthority,skt_09,beacon_09";
        Client.connection_of phone "HealthAuthority,skt_09,beacon_09,key9"]
       app_process = (Raise IndexError, app_process).
Proof.
  destruct (@short_message_raises_IndexError Demo.runtime app_process
              (split separator "HealthAuthority,skt_09,beacon_09") ["skt_09"; "beacon_09"])
    as [D L].
  - left. split; [reflexivity | cbn; lia].
  - split; [exact D|].
    eapply (L (Client.connection_of phone "HealthAuthority,skt_09,beacon_09")); reflexivity.
Defined.


(** * Further properties *)

(** ** Tokens, whatever they carry *)

Section Relays.
Context {rt : Runtime}.
Implicit Types (p : Proc AppBackend.t) (b : AppBackend.t) (r : AppBackend.subject).

Lemma decrypt_token_observed p id_phone ciphertext :
  self (snd (AppBackend._decrypt_token id_phone ciphertext p)) =
  observed (self p) id_phone ciphertext.
Proof.
  unfold observed, carried.
  destruct (Dict.get (_database (self p)) id_phone) as [r|] eqn:G.
  - rewrite (@decrypt_token_registered _ p id_phone ciphertext r G). cbv zeta.
    destruct (AppBackend.decrypt_string (AppBackend.key r) ciphertext) as [s|[]];
      try reflexivity.
    destruct (strptime s) as [new|]; [|reflexivity].
    destruct (strptime (AppBackend.datetime r)) as [old|]; [|reflexivity].
    destruct (new >? old); reflexivity.
  - now rewrite (@decrypt_token_unregistered _ p id_phone ciphertext G).
Qed.


Lemma carried_time key ciphertext s t :
  carried key ciphertext = Some (s, t) -> strptime s = Some t.
Proof.
  unfold carried. destruct (AppBackend.decrypt_string key ciphertext) as [s'|]; [|discriminate].
  destruct (strptime s') as [t'|] eqn:P; [|discriminate].
  intros H. inversion H. now subst.
Qed.

(** The time that a relayed ciphertext leaves: the later of the stored one
    and the carried one, when both are there. *)
Lemma relayed_time r ciphertext :
  strptime (AppBackend.datetime (relayed r ciphertext)) =
  match carried (AppBackend.key r) ciphertext, strptime (AppBackend.datetime r) with
  | Some (_, new), Some old => Some (Z.max new old)
  | _, old => old
  end.
Proof.
  unfold relayed.
  destruct (carried (AppBackend.key r) ciphertext) as [[s new]|] eqn:C; [|reflexivity].
  destruct (strptime (AppBackend.datetime r)) as [old|] eqn:P; [|now rewrite P].
  destruct (new >? old) eqn:G; rewrite Z.gtb_ltb in G.
  - apply Z.ltb_lt in G. cbn. rewrite (carried_time _ _ C). f_equal. lia.
  - apply Z.ltb_ge in G. rewrite P. f_equal. lia.
Qed.

Lemma relayed_key r ciphertext :
  AppBackend.key (relayed r ciphertext) = AppBackend.key r.
Proof.
  unfold relayed. destruct (carried _ _) as [[s new]|]; [|reflexivity].
  destruct (strptime _); [|reflexivity]. now destruct (_ >? _).
Qed.

Lemma relayed_beacon r ciphertext :
  AppBackend.id_beacon (relayed r ciphertext) = AppBackend.id_beacon r.
Proof.
  unfold relayed. destruct (carried _ _) as [[s new]|]; [|reflexivity].
  destruct (strptime _); [|reflexivity]. now destruct (_ >? _).
Qed.

Lemma get_observed b id_phone ciphertext other :
  Dict.get (_database (observed b id_phone ciphertext)) other =
  if String.eqb other id_phone
  then option_map (fun r => relayed r ciphertext) (Dict.get (_database b) id_phone)
  else Dict.get (_database b) other.
Proof.
  unfold observed, relayed.
  destruct (String.eqb other id_phone) eqn:E.
  - apply String.eqb_eq in E. subst other.
    destruct (Dict.get (_database b) id_phone) as [r|] eqn:G; cbn; [|exact G].
    destruct (carried _ _) as [[s new]|]; [|exact G].
    destruct (strptime _); [|exact G].
    destruct (_ >? _); [|exact G].
    cbn. apply get_set_same.
  - apply String.eqb_neq in E.
    destruct (Dict.get (_database b) id_phone) as [r|] eqn:G; [|reflexivity].
    destruct (carried _ _) as [[s new]|]; [|reflexivity].
    destruct (strptime _); [|reflexivity].
    destruct (_ >? _); [|reflexivity].
    cbn. now apply get_set_other.
Qed.

Lemma lastSeen_observed b id_phone ciphertext subject :
  lastSeen (observed b id_phone ciphertext) subject =
  if String.eqb subject id_phone
  then match Dict.get (_database b) id_phone with
       | Some r => strptime (AppBackend.datetime (relayed r ciphertext))
       | None => None
       end
  else lastSeen b subject.
Proof.
  unfold lastSeen. rewrite get_observed.
  destruct (String.eqb subject id_phone); [|reflexivity].
  now destruct (Dict.get (_database b) id_phone).
Qed.

(** The same three readings of two records. *)
Lemma relayed_same r r' ciphertext :
  AppBackend.id_beacon r = AppBackend.id_beacon r'
  /\ AppBackend.key r = AppBackend.key r'
  /\ strptime (AppBackend.datetime r) = strptime (AppBackend.datetime r') ->
  AppBackend.id_beacon (relayed r ciphertext) = AppBackend.id_beacon (relayed r' ciphertext)
  /\ AppBackend.key (relayed r ciphertext) = AppBackend.key (relayed r' ciphertext)
  /\ strptime (AppBackend.datetime (relayed r ciphertext)) =
     strptime (AppBackend.datetime (relayed r' ciphertext)).
Proof.
  intros [B [K T]].
  rewrite !relayed_beacon, !relayed_key, !relayed_time, K, T. auto.
Qed.

Lemma relayed_swap r c1 c2 :
  AppBackend.id_beacon (relayed (relayed r c1) c2) =
    AppBackend.id_beacon (relayed (relayed r c2) c1)
  /\ AppBackend.key (relayed (relayed r c1) c2) = AppBackend.key (relayed (relayed r c2) c1)
  /\ strptime (AppBackend.datetime (relayed (relayed r c1) c2)) =
     strptime (AppBackend.datetime (relayed (relayed r c2) c1)).
Proof.
  rewrite !relayed_beacon, !relayed_key.
  repeat (rewrite relayed_time; rewrite ?relayed_key).
  repeat split.
  destruct (carried (AppBackend.key r) c1) as [[s1 t1]|],
           (carried (AppBackend.key r) c2) as [[s2 t2]|],
           (strptime (AppBackend.datetime r)) as [old|]; try reflexivity.
  f_equal. lia.
Qed.

Lemma same_subjects_refl b : same_subjects b b.
Proof. intros i. destruct (Dict.get (_database b) i); auto. Qed.

Lemma same_subjects_trans b1 b2 b3 :
  same_subjects b1 b2 -> same_subjects b2 b3 -> same_subjects b1 b3.
Proof.
  intros H1 H2 i. specialize (H1 i). specialize (H2 i).
  destruct (Dict.get (_database b1) i), (Dict.get (_database b2) i),
           (Dict.get (_database b3) i); try tauto.
  destruct H1 as [A [B C]], H2 as [A' [B' C']]. repeat split; congruence.
Qed.

Lemma same_subjects_lastSeen b b' subject :
  same_subjects b b' -> lastSeen b subject = lastSeen b' subject.
Proof.
  intros H. specialize (H subject). unfold lastSeen.
  destruct (Dict.get (_database b) subject), (Dict.get (_database b') subject);
    tauto.
Qed.

Lemma observed_same_subjects b b' id_phone ciphertext :
  same_subjects b b' ->
  same_subjects (observed b id_phone ciphertext) (observed b' id_phone ciphertext).
Proof.
  intros H i. rewrite !get_observed.
  destruct (String.eqb i id_phone); [|apply H].
  specialize (H id_phone).
  destruct (Dict.get (_database b) id_phone), (Dict.get (_database b') id_phone);
    cbn; try tauto.
  now apply relayed_same.
Qed.

Lemma observed_swap b i1 c1 i2 c2 :
  same_subjects (observed (observed b i1 c1) i2 c2) (observed (observed b i2 c2) i1 c1).
Proof.
  intros i. rewrite !get_observed.
  destruct (String.eqb i i2) eqn:E2.
  - apply String.eqb_eq in E2. subst i.
    destruct (String.eqb i2 i1) eqn:E1.
    + apply String.eqb_eq in E1. subst i2. rewrite ?String.eqb_refl.
      destruct (Dict.get (_database b) i1) as [r|]; cbn; [|exact I].
      apply relayed_swap.
    + rewrite ?String.eqb_refl.
      destruct (Dict.get (_database b) i2) as [r|]; cbn; auto.
  - destruct (String.eqb i i1) eqn:E1.
    + apply String.eqb_eq in E1. subst i. rewrite ?E2, ?String.eqb_refl.
      destruct (Dict.get (_database b) i1) as [r|]; cbn; auto.
    + rewrite ?E2. destruct (Dict.get (_database b) i); auto.
Qed.

Lemma after_calls_observed (calls : list (string * string)) :
  forall p,
    self (after_calls (fun c => AppBackend._decrypt_token (fst c) (snd c)) calls p) =
    fold_left (fun b c => observed b (fst c) (snd c)) calls (self p).
Proof.
  induction calls as [|c calls IH]; intros p; [reflexivity|].
  cbn [after_calls fold_left]. now rewrite IH, decrypt_token_observed.
Qed.

Lemma fold_observed_same (calls : list (string * string)) :
  forall b b',
    same_subjects b b' ->
    same_subjects (fold_left (fun b c => observed b (fst c) (snd c)) calls b)
                  (fold_left (fun b c => observed b (fst c) (snd c)) calls b').
Proof.
  induction calls as [|c calls IH]; intros b b' H; [exact H|].
  cbn. apply IH. now apply observed_same_subjects.
Qed.

Lemma fold_observed_permutation (calls calls' : list (string * string)) :
  Permutation calls calls' ->
  forall b b',
    same_subjects b b' ->
    same_subjects (fold_left (fun b c => observed b (fst c) (snd c)) calls b)
                  (fold_left (fun b c => observed b (fst c) (snd c)) calls' b').
Proof.
  induction 1 as [|x l l' _ IH|x y l|l l' l'' _ IH1 _ IH2]; intros b b' H.
  - exact H.
  - cbn. apply IH. now apply observed_same_subjects.
  - cbn. apply fold_observed_same.
    eapply same_subjects_trans; [apply observed_swap|].
    now apply observed_same_subjects, observed_same_subjects.
  - eapply same_subjects_trans; [apply IH1, same_subjects_refl | now apply IH2].
Qed.


Lemma observed_twice b id_phone ciphertext :
  observed (observed b id_phone ciphertext) id_phone ciphertext =
  observed b id_phone ciphertext.
Proof.
  unfold observed at 2 3.
  destruct (Dict.get (_database b) id_phone) as [r|] eqn:G;
    [|unfold observed; now rewrite G].
  destruct (carried (AppBackend.key r) ciphertext) as [[s new]|] eqn:C;
    [|unfold observed; now rewrite G, C].
  destruct (strptime (AppBackend.datetime r)) as [old|] eqn:P;
    [|unfold observed; now rewrite G, C, P].
  destruct (new >? old) eqn:L; [|unfold observed; now rewrite G, C, P, L].
  unfold observed. cbn [_database dump_database set_database].
  rewrite get_set_same. cbn [AppBackend.key AppBackend.datetime redated].
  rewrite C, (carried_time _ _ C).
  replace (new >? new) with false; [reflexivity|].
  symmetry. rewrite Z.gtb_ltb. apply Z.ltb_ge. lia.
Qed.

(** X1.  The order in which tokens arrive does not matter: two sequences of
    calls of [_decrypt_token] that are permutations of each other leave
    every phone with the same time last seen. *)
Theorem relay_order_does_not_matter :
  forall (calls calls' : list (string * string)) p subject,
    Permutation calls calls' ->
    lastSeen
      (self (after_calls (fun c => AppBackend._decrypt_token (fst c) (snd c)) calls p))
      subject =
    lastSeen
      (self (after_calls (fun c => AppBackend._decrypt_token (fst c) (snd c)) calls' p))
      subject.
Proof.
  intros calls calls' p subject H.
  rewrite !after_calls_observed.
  apply same_subjects_lastSeen, fold_observed_permutation;
    [exact H | apply same_subjects_refl].
Qed.

(** X2.  A token relayed twice in a row counts once: the second call of
    [_decrypt_token] with the same arguments leaves the backend, database
    and file, as the first left it. *)
Theorem replayed_token_changes_nothing :
  forall p id_phone ciphertext,
    self (snd (AppBackend._decrypt_token id_phone ciphertext
                 (snd (AppBackend._decrypt_token id_phone ciphertext p)))) =
    self (snd (AppBackend._decrypt_token id_phone ciphertext p)).
Proof.
  intros p id_phone ciphertext.
  rewrite !decrypt_token_observed. apply observed_twice.
Qed.

(** X3.  A token relayed by a phone that the database lacks is dropped:
    [_decrypt_token] returns normally, leaves the backend as it was, and
    logs the token and then ["Invalid Phone"]. *)
Theorem token_of_unknown_phone_is_dropped :
  forall p id_phone ciphertext,
    Dict.get (_database (self p)) id_phone = None ->
    fst (AppBackend._decrypt_token id_phone ciphertext p) = Ok tt
    /\ self (snd (AppBackend._decrypt_token id_phone ciphertext p)) = self p
    /\ execution_log (world (snd (AppBackend._decrypt_token id_phone ciphertext p))) =
       (execution_log (world p)
          ++ [(strftime (clock (world p) (reads (world p))),
               ["New Token"; id_phone; ciphertext]);
              (strftime (call_time p), ["Invalid Phone"; id_phone])])%list.
Proof.
  intros p id_phone ciphertext G.
  rewrite (@decrypt_token_unregistered _ p id_phone ciphertext G).
  cbn. repeat split. now rewrite <- app_assoc.
Qed.

(** X4.  [_decrypt_token] catches [InvalidToken] and nothing else.  For a
    registered phone, any other exception of the decryption (the
    [ValueError] of a key that makes no cipher, the [UnicodeDecodeError] of
    a plaintext that is not text) and the [ValueError] of a date that does
    not read as a time, decrypted or stored, leave the call by exception;
    the backend is then left as it was. *)
Theorem token_errors_leave_by_exception :
  forall p id_phone ciphertext r,
    Dict.get (_database (self p)) id_phone = Some r ->
    (forall e,
        AppBackend.decrypt_string (AppBackend.key r) ciphertext = Raise e ->
        e <> InvalidToken ->
        fst (AppBackend._decrypt_token id_phone ciphertext p) = Raise e)
    /\ (Fernet (AppBackend.key r) = None ->
        fst (AppBackend._decrypt_token id_phone ciphertext p) = Raise ValueError)
    /\ (forall s,
          AppBackend.decrypt_string (AppBackend.key r) ciphertext = Ok s ->
          strptime s = None \/ strptime (AppBackend.datetime r) = None ->
          fst (AppBackend._decrypt_token id_phone ciphertext p) = Raise ValueError)
    /\ (forall e,
          fst (AppBackend._decrypt_token id_phone ciphertext p) = Raise e ->
          self (snd (AppBackend._decrypt_token id_phone ciphertext p)) = self p).
Proof.
  intros p id_phone ciphertext r G.
  rewrite (@decrypt_token_registered _ p id_phone ciphertext r G). cbv zeta.
  split; [|split; [|split]].
  - intros e D N. rewrite D. now destruct e.
  - intros F. unfold AppBackend.decrypt_string. now rewrite F.
  - intros s D [P|P]; rewrite D, P; [reflexivity|].
    now destruct (strptime s).
  - intros e.
    destruct (AppBackend.decrypt_string (AppBackend.key r) ciphertext) as [s|[]];
      try reflexivity; try discriminate.
    destruct (strptime s); [|reflexivity].
    destruct (strptime (AppBackend.datetime r)); [|reflexivity].
    destruct (_ >? _); discriminate.
Qed.

Lemma get_key_registered p id_phone r :
  Dict.get (_database (self p)) id_phone = Some r ->
  AppBackend._get_key id_phone p = (Ok (Some (AppBackend.key r)), p).
Proof.
  intros G. unfold AppBackend._get_key, bind, gets, lift, Dict.mem, Dict.getitem.
  cbn. now rewrite !G.
Qed.

(** X5.  [_get_key] after [_add_phone] returns the key just registered,
    whatever key the phone had before, and logs nothing; for a phone that
    the database lacks it returns [None], logs ["Invalid Phone"] and leaves
    the backend as it was. *)
Theorem get_key_after_add_phone :
  forall p id_phone,
    (forall id_beacon key,
        AppBackend._get_key id_phone (snd (AppBackend._add_phone id_phone id_beacon key p)) =
        (Ok (Some key), snd (AppBackend._add_phone id_phone id_beacon key p)))
    /\ (Dict.get (_database (self p)) id_phone = None ->
        fst (AppBackend._get_key id_phone p) = Ok None
        /\ self (snd (AppBackend._get_key id_phone p)) = self p
        /\ execution_log (world (snd (AppBackend._get_key id_phone p))) =
           (execution_log (world p)
              ++ [(strftime (clock (world p) (reads (world p))),
                   ["Invalid Phone"; id_phone])])%list).
Proof.
  intros p id_phone. split.
  - intros id_beacon key.
    rewrite (@get_key_registered _ id_phone
               {| AppBackend.id_beacon := id_beacon; AppBackend.key := key;
                  AppBackend.datetime := strftime (call_time p) |}); [reflexivity|].
    rewrite add_phone_run. cbn. apply get_set_same.
  - intros G. unfold AppBackend._get_key, bind, gets, Dict.mem.
    cbn. rewrite G. cbn. auto.
Qed.

End Relays.

(** ** What the computations keep *)

Section Keeping.
Variables (S : Type) (R : S -> S -> Prop).
Hypothesis R_refl : forall s, R s s.
Hypothesis R_trans : forall s1 s2 s3, R s1 s2 -> R s2 s3 -> R s1 s3.

Lemma keeps_ret A (a : A) : keeps R (ret a).
Proof. intros s. apply R_refl. Qed.

Lemma keeps_lift A (r : res A) : keeps R (lift r).
Proof. intros s. apply R_refl. Qed.

Lemma keeps_gets A (f : S -> A) : keeps R (gets f).
Proof. intros s. apply R_refl. Qed.

Lemma keeps_bind A B (m : M S A) (k : A -> M S B) :
  keeps R m -> (forall a, keeps R (k a)) -> keeps R (bind m k).
Proof.
  intros Hm Hk s. unfold bind. specialize (Hm s).
  destruct (m s) as [[a|e] s']; cbn in *; [|exact Hm].
  eapply R_trans; [exact Hm | apply Hk].
Qed.

Lemma keeps_try_except (body handler : M S unit) e :
  keeps R body -> keeps R handler -> keeps R (try_except body e handler).
Proof.
  intros Hb Hh s. unfold try_except. specialize (Hb s).
  destruct (body s) as [[[]|e'] s']; cbn in *; [exact Hb|].
  destruct (exn_eqb e' e); [|exact Hb].
  eapply R_trans; [exact Hb | apply Hh].
Qed.

Lemma keeps_for_each A (body : A -> M S unit) (l : list A) :
  (forall a, keeps R (body a)) -> keeps R (for_each l body).
Proof.
  intros H. induction l as [|a l IH]; cbn [for_each].
  - apply keeps_ret.
  - apply keeps_bind; [apply H | intros _; exact IH].
Qed.

End Keeping.

Lemma continues_refl w : continues w w.
Proof.
  unfold continues. repeat split; auto; exists []; now rewrite app_nil_r.
Qed.

Lemma continues_trans w1 w2 w3 : continues w1 w2 -> continues w2 w3 -> continues w1 w3.
Proof.
  unfold continues.
  intros [C1 [A1 [U1 [L1 [R1 [D1 [[e1 E1] [[o1 O1] [[s1 S1] [h1 H1]]]]]]]]]]
         [C2 [A2 [U2 [L2 [R2 [D2 [[e2 E2] [[o2 O2] [[s2 S2] [h2 H2]]]]]]]]]].
  repeat split; try congruence; try lia.
  - exists (e1 ++ e2)%list. now rewrite E2, E1, app_assoc.
  - exists (o1 ++ o2)%list. now rewrite O2, O1, app_assoc.
  - exists (s1 ++ s2)%list. now rewrite S2, S1, app_assoc.
  - exists (h1 ++ h2)%list. now rewrite H2, H1, app_assoc.
Qed.

Section History.
Variable B : Type.

Lemma history_refl (p : Proc B) : history p p.
Proof. apply continues_refl. Qed.

Lemma history_trans (p1 p2 p3 : Proc B) : history p1 p2 -> history p2 p3 -> history p1 p3.
Proof. apply continues_trans. Qed.

Lemma keeps_history_on_self (f : B -> B) : keeps (@history B) (on_self f).
Proof. intros p. apply continues_refl. Qed.

Lemma keeps_history_on_world (f : World -> World) :
  (forall w, continues w (f w)) -> keeps (@history B) (on_world f).
Proof. intros H p. apply H. Qed.

Lemma continues_tick w : continues w (tick w).
Proof.
  unfold continues. cbn. repeat split; auto; exists []; now rewrite app_nil_r.
Qed.

Lemma continues_draw w : continues w (draw w).
Proof.
  unfold continues. cbn. repeat split; auto; exists []; now rewrite app_nil_r.
Qed.

Lemma continues_log_line l w : continues w (log_line l w).
Proof.
  unfold continues. cbn. repeat split; auto; try (exists []; now rewrite app_nil_r).
  now exists [l].
Qed.

Lemma continues_print_line l w : continues w (print_line l w).
Proof.
  unfold continues. cbn. repeat split; auto; try (exists []; now rewrite app_nil_r).
  now exists [l].
Qed.

Lemma continues_write_to port b w : continues w (write_to port b w).
Proof.
  unfold continues. cbn. repeat split; auto; try (exists []; now rewrite app_nil_r).
  now exists [(port, b)].
Qed.

Lemma continues_record_call c w : continues w (record_call c w).
Proof.
  unfold continues. cbn. repeat split; auto; try (exists []; now rewrite app_nil_r).
  now exists [c].
Qed.

Lemma keeps_history_utcnow : keeps (@history B) utcnow.
Proof. intros p. apply continues_tick. Qed.

Lemma keeps_history_random_rand : keeps (@history B) random_rand.
Proof. intros p. apply continues_draw. Qed.

Lemma keeps_history_os_urandom : keeps (@history B) os_urandom.
Proof. intros p. apply continues_draw. Qed.

End History.

(** The steps of a proof that a computation keeps the history of its
    environment, or the object it runs on. *)
Ltac keeps_pre :=
  first [ exact (@history_refl _) | exact (@history_trans _)
        | unfold same_self; intros; congruence ].

Ltac keeps_step :=
  match goal with
  | |- keeps _ (bind _ _) => apply keeps_bind; [keeps_pre | | intros ?]
  | |- keeps _ (ret _) => apply keeps_ret; keeps_pre
  | |- keeps _ (lift _) => apply keeps_lift; keeps_pre
  | |- keeps _ (gets _) => apply keeps_gets; keeps_pre
  | |- keeps _ (try_except _ _ _) => apply keeps_try_except; [keeps_pre | | ]
  | |- keeps _ (for_each _ _) => apply keeps_for_each; [keeps_pre | keeps_pre | intros ?]
  | |- keeps (@history _) (on_self _) => apply keeps_history_on_self
  | |- keeps (@history _) (on_world _) =>
      apply keeps_history_on_world; intros ?;
      first [apply continues_log_line | apply continues_print_line
            | apply continues_write_to | apply continues_record_call]
  | |- keeps (@history _) utcnow => apply keeps_history_utcnow
  | |- keeps (@history _) time_time => unfold time_time
  | |- keeps (@history _) random_rand => apply keeps_history_random_rand
  | |- keeps (@history _) os_urandom => apply keeps_history_os_urandom
  | |- keeps _ (print _) => unfold print
  | |- keeps (@same_self _) (on_world _) => intros ?; reflexivity
  | |- keeps (@same_self _) utcnow => intros ?; reflexivity
  | |- keeps _ (update_execution_log _) => unfold update_execution_log
  | |- keeps _ (match ?x with _ => _ end) => destruct x
  end.

(** [keeps_known f lemma] closes a goal about a call of the method [f] by
    the lemma proved for that method. *)
Ltac head_of t :=
  lazymatch t with
  | ?f _ => head_of f
  | _ => t
  end.

Ltac keeps_known f lemma :=
  lazymatch goal with
  | |- keeps _ ?m => let h := head_of m in constr_eq h f; apply lemma
  end.

Section AppKeeps.
Context {rt : Runtime}.

Lemma add_phone_history a b c : keeps (@history _) (AppBackend._add_phone a b c).
Proof. unfold AppBackend._add_phone. repeat keeps_step. Qed.

Lemma get_key_history a : keeps (@history _) (AppBackend._get_key a).
Proof. unfold AppBackend._get_key. repeat keeps_step. Qed.

Lemma decrypt_token_history a b : keeps (@history _) (AppBackend._decrypt_token a b).
Proof.
  unfold AppBackend._decrypt_token.
  repeat first [keeps_known (@AppBackend._get_key) get_key_history | keeps_step].
Qed.

Lemma client_session_history data : keeps (@history _) (AppBackend._client_session data).
Proof. unfold AppBackend._client_session. repeat keeps_step. Qed.

Lemma check_history td_expire a : keeps (@history _) (AppBackend.check td_expire a).
Proof.
  unfold AppBackend.check. cbv zeta.
  repeat first [keeps_known (@AppBackend._client_session) client_session_history | keeps_step].
Qed.

Lemma control_routine_history td_expire :
  keeps (@history _) (AppBackend.control_routine td_expire).
Proof.
  unfold AppBackend.control_routine.
  repeat first [keeps_known (@AppBackend.check) check_history | keeps_step].
Qed.

Lemma app_dispatch_history data : keeps (@history _) (AppBackend.dispatch data).
Proof.
  unfold AppBackend.dispatch.
  repeat first [keeps_known (@AppBackend._add_phone) add_phone_history
               | keeps_known (@AppBackend._decrypt_token) decrypt_token_history
               | keeps_step].
Qed.

Lemma app_serve_history c : keeps (@history _) (AppBackend.serve c).
Proof.
  unfold AppBackend.serve. repeat first [keeps_known (@AppBackend.dispatch) app_dispatch_history | keeps_step].
Qed.

Lemma app_server_session_history l : keeps (@history _) (AppBackend.server_session l).
Proof.
  unfold AppBackend.server_session. repeat first [keeps_known (@AppBackend.serve) app_serve_history | keeps_step].
Qed.

Lemma client_session_self data : keeps (@same_self _) (AppBackend._client_session data).
Proof. unfold AppBackend._client_session. repeat keeps_step. Qed.

Lemma check_self td_expire a : keeps (@same_self _) (AppBackend.check td_expire a).
Proof.
  unfold AppBackend.check. cbv zeta.
  repeat first [keeps_known (@AppBackend._client_session) client_session_self | keeps_step].
Qed.

Lemma control_routine_self td_expire :
  keeps (@same_self _) (AppBackend.control_routine td_expire).
Proof.
  unfold AppBackend.control_routine.
  repeat first [keeps_known (@AppBackend.check) check_self | keeps_step].
Qed.

End AppKeeps.

Section OtherKeeps.
Context {rt : Runtime}.

Lemma add_datetime_history a : keeps (@history _) (AuthorityBackend._add_datetime a).
Proof. unfold AuthorityBackend._add_datetime. repeat keeps_step. Qed.

Lemma add_beacon_history a b : keeps (@history _) (AuthorityBackend.add_beacon a b).
Proof. unfold AuthorityBackend.add_beacon. repeat keeps_step. Qed.

Lemma authority_dispatch_history data : keeps (@history _) (AuthorityBackend.dispatch data).
Proof.
  unfold AuthorityBackend.dispatch.
  repeat first [keeps_known (@AuthorityBackend._add_datetime) add_datetime_history | keeps_step].
Qed.

Lemma authority_serve_history c : keeps (@history _) (AuthorityBackend.serve c).
Proof.
  unfold AuthorityBackend.serve.
  repeat first [keeps_known (@AuthorityBackend.dispatch) authority_dispatch_history | keeps_step].
Qed.

Lemma authority_server_session_history l :
  keeps (@history _) (AuthorityBackend.server_session l).
Proof.
  unfold AuthorityBackend.server_session.
  repeat first [keeps_known (@AuthorityBackend.serve) authority_serve_history | keeps_step].
Qed.

Lemma check_ca_certificate_history : keeps (@history _) Client._check_ca_certificate.
Proof. unfold Client._check_ca_certificate. repeat keeps_step. Qed.

Lemma client_client_session_history data : keeps (@history _) (Client._client_session data).
Proof.
  unfold Client._client_session.
  repeat first [keeps_known (@Client._check_ca_certificate) check_ca_certificate_history | keeps_step].
Qed.

Lemma health_authority_routine_history a b c :
  keeps (@history _) (HealthAuthority.routine a b c).
Proof.
  unfold HealthAuthority.routine.
  repeat first [keeps_known (@Client._client_session) client_client_session_history | keeps_step].
Qed.

Lemma beacon_routine_history on prob : keeps (@history _) (SmartBeacon.routine on prob).
Proof. unfold SmartBeacon.routine. cbv zeta. repeat keeps_step. Qed.

End OtherKeeps.

(** X6.  Nothing that runs rewrites what is on record.  Whatever the
    arguments and however the run ends, the accept loops of both backends,
    the detector, [add_beacon], the routine of the health authority and
    the routine of the beacon leave an environment that continues the one
    they found: the execution log, the standard output and what was sent
    have only grown at their end, and no clock reading is taken twice. *)
Theorem runs_only_append :
  forall (rt : Runtime),
    (forall arrivals (p : Proc AppBackend.t),
        history p (snd (AppBackend.server_session arrivals p)))
    /\ (forall td_expire (p : Proc AppBackend.t),
          history p (snd (AppBackend.control_routine td_expire p)))
    /\ (forall arrivals (p : Proc AuthorityBackend.t),
          history p (snd (AuthorityBackend.server_session arrivals p)))
    /\ (forall id_beacon info (p : Proc AuthorityBackend.t),
          history p (snd (AuthorityBackend.add_beacon id_beacon info p)))
    /\ (forall id_phone id_beacon key (p : Proc Client.t),
          history p (snd (HealthAuthority.routine id_phone id_beacon key p)))
    /\ (forall on prob (p : Proc SmartBeacon.t),
          history p (snd (SmartBeacon.routine on prob p))).
Proof.
  intros rt.
  split; [intros; apply app_server_session_history|].
  split; [intros; apply control_routine_history|].
  split; [intros; apply authority_server_session_history|].
  split; [intros; apply add_beacon_history|].
  split; [intros; apply health_authority_routine_history|].
  intros; apply beacon_routine_history.
Qed.

(** X7.  The detector only looks: whatever the tolerance, the clock and the
    state of the network, and whether it returns or raises,
    [control_routine] leaves the backend, database and file, exactly as it
    found it. *)
Theorem control_routine_leaves_backend :
  forall (rt : Runtime) td_expire (p : Proc AppBackend.t),
    self (snd (AppBackend.control_routine td_expire p)) = self p.
Proof. intros rt td_expire p. apply control_routine_self. Qed.

(** ** The detector and the network *)


Section Network.
Context {rt : Runtime}.
Implicit Types (p : Proc AppBackend.t) (r : AppBackend.subject).







End Network.

(** ** The authority: beacons, alerts and peers *)

Section Authority.
Context {rt : Runtime}.
Implicit Types (p : Proc AuthorityBackend.t).

Lemma add_beacon_run p id_beacon info :
  AuthorityBackend.add_beacon id_beacon info p =
  (Ok tt,
   {| world := log_line (strftime (clock (world p) (reads (world p))),
                         ["New Beacon"; id_beacon; info]) (tick (world p));
      self := AuthorityBackend.set_base
                (dump_database
                   (set_database
                      (Dict.set (_database (AuthorityBackend.base (self p))) id_beacon info)
                      (AuthorityBackend.base (self p))))
                (self p) |}).
Proof. reflexivity. Qed.

(** X10.  [add_beacon] returns normally, stores the information under the
    beacon whatever was there, keeps the other beacons, writes the
    database to its file and leaves the log of violations and its file
    alone; an alert for the beacon just added is then accepted, and adds
    one entry to the list the beacon had. *)
Theorem added_beacon_can_be_alerted :
  forall p id_beacon info,
    fst (AuthorityBackend.add_beacon id_beacon info p) = Ok tt
    /\ Dict.get (_database (AuthorityBackend.base
                              (self (snd (AuthorityBackend.add_beacon id_beacon info p)))))
         id_beacon = Some info
    /\ (forall other, other <> id_beacon ->
          Dict.get (_database (AuthorityBackend.base
                                 (self (snd (AuthorityBackend.add_beacon id_beacon info p)))))
            other =
          Dict.get (_database (AuthorityBackend.base (self p))) other)
    /\ _database_path (AuthorityBackend.base
                         (self (snd (AuthorityBackend.add_beacon id_beacon info p)))) =
       Some (_database (AuthorityBackend.base
                          (self (snd (AuthorityBackend.add_beacon id_beacon info p)))))
    /\ AuthorityBackend._log (self (snd (AuthorityBackend.add_beacon id_beacon info p))) =
       AuthorityBackend._log (self p)
    /\ AuthorityBackend._log_path (self (snd (AuthorityBackend.add_beacon id_beacon info p))) =
       AuthorityBackend._log_path (self p)
    /\ fst (AuthorityBackend._add_datetime id_beacon
              (snd (AuthorityBackend.add_beacon id_beacon info p))) = Ok tt
    /\ violations
         (AuthorityBackend._log
            (self (snd (AuthorityBackend._add_datetime id_beacon
                          (snd (AuthorityBackend.add_beacon id_beacon info p))))))
         id_beacon =
       (violations (AuthorityBackend._log (self p)) id_beacon
          ++ [strftime (call_time (snd (AuthorityBackend.add_beacon id_beacon info p)))])%list.
Proof.
  intros p id_beacon info.
  assert (G : Dict.get (_database (AuthorityBackend.base
                (self (snd (AuthorityBackend.add_beacon id_beacon info p))))) id_beacon
              = Some info)
    by (rewrite add_beacon_run; cbn; apply get_set_same).
  rewrite (add_datetime_known _ _ G).
  rewrite add_beacon_run in *. cbn [fst snd self world] in *.
  split; [reflexivity|]. split; [exact G|].
  split; [intros other N; cbn; now apply get_set_other|].
  split; [reflexivity|]. split; [reflexivity|]. split; [reflexivity|]. split; [reflexivity|].
  cbn. unfold violations at 1. now rewrite get_set_same.
Qed.

Lemma violations_after_known p id_beacon info b :
  Dict.get (_database (AuthorityBackend.base (self p))) id_beacon = Some info ->
  _database (AuthorityBackend.base (self (snd (AuthorityBackend._add_datetime id_beacon p)))) =
    _database (AuthorityBackend.base (self p))
  /\ length (violations (AuthorityBackend._log
                           (self (snd (AuthorityBackend._add_datetime id_beacon p)))) b) =
     (length (violations (AuthorityBackend._log (self p)) b)
      + if string_dec id_beacon b then 1 else 0)%nat.
Proof.
  intros G. rewrite (add_datetime_known _ _ G). cbn [snd self].
  split; [reflexivity|]. cbn.
  destruct (string_dec id_beacon b) as [->|N].
  - unfold violations at 1. rewrite get_set_same, length_app. reflexivity.
  - unfold violations at 1. rewrite get_set_other by congruence.
    fold (violations (AuthorityBackend._log (self p)) b). lia.
Qed.

(** X11.  Alerts are never merged: after any sequence of alerts for beacons
    of the database, the list of a beacon has grown by exactly the number
    of alerts received for it. *)
Theorem every_alert_adds_an_entry :
  forall (calls : list string) p id_beacon,
    (forall c, In c calls ->
       Dict.mem (_database (AuthorityBackend.base (self p))) c = true) ->
    length (violations
              (AuthorityBackend._log
                 (self (after_calls AuthorityBackend._add_datetime calls p)))
              id_beacon) =
    (length (violations (AuthorityBackend._log (self p)) id_beacon)
     + count_occ string_dec calls id_beacon)%nat.
Proof.
  induction calls as [|c calls IH]; intros p b K; [cbn; lia|].
  cbn [after_calls count_occ].
  assert (Kc : Dict.mem (_database (AuthorityBackend.base (self p))) c = true)
    by (apply K; now left).
  unfold Dict.mem in Kc.
  destruct (Dict.get (_database (AuthorityBackend.base (self p))) c) as [info|] eqn:G;
    [|discriminate].
  destruct (@violations_after_known p c info b G) as [D L].
  rewrite IH, L.
  - destruct (string_dec c b); lia.
  - intros c' Hc'. rewrite D. apply K. now right.
Qed.



End Authority.

(** X13.  Bytes that are not UTF-8 end the accept loop.  When the handshake
    succeeds and the first 1024 bytes that the peer wrote do not decode,
    either server raises [UnicodeDecodeError] before any routing: the
    process is left as it was and the connections behind are not served. *)
Theorem undecodable_payload_ends_session :
  forall (rt : Runtime) (c : connection) (later : list connection),
    utf8_valid (read c) = false ->
    (forall (p : Proc AppBackend.t) s,
        ssl.handshake (AppBackend.server_args (self p)) (peer c) = Some s ->
        AppBackend.server_session (c :: later) p = (Raise UnicodeDecodeError, p))
    /\ (forall (p : Proc AuthorityBackend.t) s,
          ssl.handshake (AuthorityBackend.server_args (self p)) (peer c) = Some s ->
          AuthorityBackend.server_session (c :: later) p = (Raise UnicodeDecodeError, p)).
Proof.
  intros rt c later U. split; intros p s H.
  - unfold AppBackend.server_session. cbn [for_each]. unfold bind.
    unfold AppBackend.serve, bind, gets, lift, bytes_decode. cbn. now rewrite H, U.
  - unfold AuthorityBackend.server_session. cbn [for_each]. unfold bind.
    unfold AuthorityBackend.serve, bind, gets, lift, bytes_decode. cbn. now rewrite H, U.
Qed.

(** ** The further properties at the demo *)

(** X1 at the demo: two tokens of the first phone, in either order. *)
Lemma relay_order_does_not_matter_witness :
  lastSeen
    (self (after_calls (fun c => AppBackend._decrypt_token (fst c) (snd c))
             [("skt_01", token K1 25000000); ("skt_01", token K1 22000000)] app_process))
    "skt_01" =
  lastSeen
    (self (after_calls (fun c => AppBackend._decrypt_token (fst c) (snd c))
             [("skt_01", token K1 22000000); ("skt_01", token K1 25000000)] app_process))
    "skt_01".
Proof.
  apply (@relay_order_does_not_matter Demo.runtime). apply perm_swap.
Defined.

(** X3 at the demo: a phone that nobody registered. *)
Lemma token_of_unknown_phone_is_dropped_witness :
  fst (AppBackend._decrypt_token "skt_99" (token K1 25000000) app_process) = Ok tt
  /\ self (snd (AppBackend._decrypt_token "skt_99" (token K1 25000000) app_process)) =
     self app_process.
Proof.
  destruct (@token_of_unknown_phone_is_dropped Demo.runtime app_process
              "skt_99" (token K1 25000000) eq_refl) as [R [S _]].
  split; [exact R | exact S].
Defined.

(** X4 at the demo: a token of the first phone that carries no date. *)
Lemma token_errors_leave_by_exception_witness :
  fst (AppBackend._decrypt_token "skt_01" Cases.undated app_process) = Raise ValueError
  /\ self (snd (AppBackend._decrypt_token "skt_01" Cases.undated app_process)) =
     self app_process.
Proof.
  destruct (@token_errors_leave_by_exception Demo.runtime app_process "skt_01" Cases.undated
              {| AppBackend.id_beacon := "beacon_01"; AppBackend.key := K1;
                 AppBackend.datetime := "1000000" |} eq_refl) as [_ [_ [V F]]].
  assert (E : fst (AppBackend._decrypt_token "skt_01" Cases.undated app_process) =
              Raise ValueError).
  { apply (V "soon"); [vm_compute; reflexivity | left; vm_compute; reflexivity]. }
  split; [exact E | exact (F ValueError E)].
Defined.



(** X11 at the demo: three alerts, two of them for the first beacon. *)
Lemma every_alert_adds_an_entry_witness :
  length (violations
            (AuthorityBackend._log
               (self (after_calls AuthorityBackend._add_datetime
                        ["beacon_01"; "beacon_02"; "beacon_01"] authority_process)))
            "beacon_01") = 2%nat.
Proof.
  apply (@every_alert_adds_an_entry Demo.runtime
           ["beacon_01"; "beacon_02"; "beacon_01"] authority_process "beacon_01").
  intros c [<-|[<-|[<-|[]]]]; reflexivity.
Defined.


(** X13 at the demo: one byte that is no text, from the phone to AppBackend
    and from AppBackend to the authority. *)
Lemma undecodable_payload_ends_session_witness :
  AppBackend.server_session
    [Cases.garbage; Client.connection_of phone "HealthAuthority,skt_09,beacon_09,key9"]
    app_process = (Raise UnicodeDecodeError, app_process).
Proof.
  destruct (@undecodable_payload_ends_session Demo.runtime Cases.garbage
              [Client.connection_of phone "HealthAuthority,skt_09,beacon_09,key9"]
              eq_refl) as [A _].
  eapply A. reflexivity.
Defined.
